(** * Daily Sugar Guidance: the reading classification and history engine

    A shallow embedding of [src/app.py].  The script is a Streamlit page:
    every run reads the widgets, handles a submission, and renders the
    result, the trend chart and the history table.  Its state lives in two
    places, the CSV file at [CSV_PATH] and [st.session_state]; both are
    threaded explicitly here.  Python exceptions are results of type [py]. *)

From Stdlib Require Import ZArith List String Ascii Bool Lia DecimalString.
Import ListNotations.

Local Open Scope string_scope.
Local Open Scope Z_scope.

(** ** Python values used by the script *)

(** A Python computation either returns or raises. *)
Inductive py (A : Type) : Type :=
| Ok (a : A)
| Raise (exn : string).
Arguments Ok {A} a.
Arguments Raise {A} exn.

(** A [dict] with string keys, in insertion order. *)
Definition dict (V : Type) : Type := list (string * V).

(** [d[k]], which raises [KeyError] on a missing key. *)
Fixpoint getitem {V : Type} (d : dict V) (k : string) : py V :=
  match d with
  | [] => Raise "KeyError"
  | (k', v) :: d' => if String.eqb k' k then Ok v else getitem d' k
  end.

(** [list(d.keys())] *)
Definition keys {V : Type} (d : dict V) : list string := map fst d.

(** [str.lower()] on the ASCII letters; every string the script lowers
    (the keys of [READING_TYPES]) is plain ASCII. *)
Definition lower_ascii (c : ascii) : ascii :=
  let n := nat_of_ascii c in
  if (Nat.leb 65 n && Nat.leb n 90)%bool then ascii_of_nat (n + 32) else c.

Fixpoint lower (s : string) : string :=
  match s with
  | EmptyString => EmptyString
  | String c s' => String (lower_ascii c) (lower s')
  end.

(** [f"{int(z)}"] for an integer [z]. *)
Definition str_int (z : Z) : string := NilZero.string_of_int (Z.to_int z).

(** ** Constants (lines 25-40) *)

Definition READING_TYPES : dict string :=
  [ ("Fasting (Empty Stomach)", "fasting");
    ("After Breakfast", "post_breakfast");
    ("After Lunch", "post_lunch");
    ("After Dinner", "post_dinner");
    ("Random", "random") ].

Record Threshold : Type := mkThreshold {
  low : Z;
  normal_max : Z;
  borderline_max : Z;
  warning : Z
}.

Definition THRESHOLDS : dict Threshold :=
  [ ("fasting", mkThreshold 70 100 125 126);
    ("post_breakfast", mkThreshold 80 140 160 161);
    ("post_lunch", mkThreshold 80 140 160 161);
    ("post_dinner", mkThreshold 80 140 160 161);
    ("random", mkThreshold 70 120 140 141) ].

(** The five reading contexts of the selectbox, with the label the user
    picks and the key that is stored. *)
Inductive ReadingContext : Type :=
| Fasting | PostBreakfast | PostLunch | PostDinner | RandomReading.

Definition all_contexts : list ReadingContext :=
  [Fasting; PostBreakfast; PostLunch; PostDinner; RandomReading].

Definition display_name (c : ReadingContext) : string :=
  match c with
  | Fasting => "Fasting (Empty Stomach)"
  | PostBreakfast => "After Breakfast"
  | PostLunch => "After Lunch"
  | PostDinner => "After Dinner"
  | RandomReading => "Random"
  end.

Definition context_key (c : ReadingContext) : string :=
  match c with
  | Fasting => "fasting"
  | PostBreakfast => "post_breakfast"
  | PostLunch => "post_lunch"
  | PostDinner => "post_dinner"
  | RandomReading => "random"
  end.

(** ** The history log as a pandas frame

    The CSV file holds one record per row.  A frame keeps its column names
    (in order) and its rows; a row that has no value in [reading_type]
    (the column is absent, or the cell is empty and read as NaN) carries
    [None].  [to_csv] followed by [read_csv] returns the frame that was
    written, so the file is modelled by the frame it holds. *)
Module Pandas.

Record Row : Type := mkRow {
  datetime : string;
  reading_type : option string;
  sugar : Z
}.

Record DataFrame : Type := mkFrame {
  columns : list string;
  rows : list Row
}.

(** [pd.DataFrame()] *)
Definition empty_frame : DataFrame := mkFrame [] [].

(** [len(df)] *)
Definition len (df : DataFrame) : Z := Z.of_nat (List.length (rows df)).

(** [df.empty] *)
Definition is_empty (df : DataFrame) : bool :=
  match rows df with [] => true | _ => false end.

(** [name in df.columns] *)
Definition has_column (name : string) (df : DataFrame) : bool :=
  existsb (String.eqb name) (columns df).

(** [df["reading_type"] = value]: every row gets the value; a new
    column goes last. *)
Definition set_reading_type (value : string) (df : DataFrame) : DataFrame :=
  mkFrame
    (if has_column "reading_type" df then columns df
     else (columns df ++ ["reading_type"])%list)
    (map (fun r => mkRow (datetime r) (Some value) (sugar r)) (rows df)).

(** [pd.concat([a, b], ignore_index=True)]: the rows of [a] then
    those of [b]; the columns of [a] then the new ones of [b]. *)
Definition concat (a b : DataFrame) : DataFrame :=
  mkFrame
    (columns a ++ filter (fun c => negb (has_column c a)) (columns b))%list
    (rows a ++ rows b)%list.

(** The last [k] elements of a list. *)
Definition lastn {A : Type} (k : nat) (l : list A) : list A :=
  skipn (List.length l - k) l.

(** [df.tail(n)]: nothing for [n = 0], the last [n] rows for a
    positive [n], all rows but the first [-n] for a negative one. *)
Definition tail (n : Z) (df : DataFrame) : DataFrame :=
  mkFrame (columns df)
    (if n =? 0 then []
     else if 0 <? n then lastn (Z.to_nat n) (rows df)
     else skipn (Z.to_nat (- n)) (rows df)).

(** [df.iloc[i]] for a negative position [i] (counted from the end),
    which raises [IndexError] out of range. *)
Definition iloc (df : DataFrame) (i : Z) : py Row :=
  if (i <? 0) && (- i <=? len df) then
    match nth_error (rows df) (Z.to_nat (len df + i)) with
    | Some r => Ok r
    | None => Raise "IndexError"
    end
  else Raise "IndexError".

(** [df[df["reading_type"] == value]] *)
Definition where_reading_type (value : string) (df : DataFrame) : DataFrame :=
  mkFrame (columns df)
    (filter (fun r => match reading_type r with
                      | Some t => String.eqb t value
                      | None => false
                      end) (rows df)).

End Pandas.
Import Pandas.

(** The file at [CSV_PATH]: [None] when [os.path.exists] is false. *)
Definition CsvFile : Type := option DataFrame.

(** The records of the log, oldest first. *)
Definition history_log (file : CsvFile) : list Row :=
  match file with
  | None => []
  | Some df => rows df
  end.

(** The block that every reader repeats (lines 57-58, 75-76, 102-103,
    160-161): a frame without the context column gets it, filled with
    [random]. *)
Definition add_missing_reading_type (data : DataFrame) : DataFrame :=
  if negb (has_column "reading_type" data) then set_reading_type "random" data
  else data.

(** ** Save Sugar History (lines 45-62)

    [timestamp] is [datetime.now().strftime(...)], read from the clock. *)
Definition save_sugar_history (timestamp : string) (sugar_value : Z)
    (reading_type : string) (file : CsvFile) : CsvFile :=
  let new_data :=
    mkFrame ["datetime"; "reading_type"; "sugar"]
            [mkRow timestamp (Some reading_type) sugar_value] in
  match file with
  | Some old_data0 =>
      let old_data := add_missing_reading_type old_data0 in
      let updated_data := concat old_data new_data in
      Some updated_data
  | None => Some new_data
  end.

(** ** Smart Insight Logic (lines 68-89)

    The argument [reading_type] is accepted and never read. *)
Definition NO_HISTORY : string := "No history available yet.".

Definition FIRST_ENTRY : string :=
  "This is your first entry. Add more daily values to see comparisons.".

Definition SAME_AS_YESTERDAY : string :=
  "Your sugar level is the same as yesterday. Maintain your routine.".

Definition good_progress (delta : Z) : string :=
  "Good progress. Today's sugar is lower than yesterday by "
    ++ str_int delta ++ " mg/dL.".

Definition attention_needed (delta : Z) : string :=
  "Attention needed. Today's sugar is higher than yesterday by "
    ++ str_int delta ++ " mg/dL.".

(** The frame the insight works on, after the compatibility block. *)
Definition insight_data (file : CsvFile) : option DataFrame :=
  match file with
  | None => None
  | Some data => Some (add_missing_reading_type data)
  end.

Definition get_smart_insight (reading_type : string) (file : CsvFile)
    : py string :=
  match insight_data file with
  | None => Ok NO_HISTORY
  | Some data =>
      if len data <? 2 then Ok FIRST_ENTRY
      else
        match iloc data (-1), iloc data (-2) with
        | Ok today, Ok yesterday =>
            let today_value := sugar today in
            let yesterday_value := sugar yesterday in
            if today_value <? yesterday_value then
              Ok (good_progress (yesterday_value - today_value))
            else if today_value >? yesterday_value then
              Ok (attention_needed (today_value - yesterday_value))
            else Ok SAME_AS_YESTERDAY
        | Raise e, _ => Raise e
        | _, Raise e => Raise e
        end
  end.

(** ** Sugar Trend Graph (lines 94-148)

    Of the figure, the bars are kept: their heights, their colors and
    their tick labels.  The function returns the [st.info] messages it
    wrote and the figure, if any. *)
Record Figure : Type := mkFigure {
  bar_heights : list Z;
  bar_colors : list string;
  tick_labels : list string
}.

(** The loop of lines 116-125, one [append] per value. *)
Definition trend_colors (values : list Z) : list string :=
  fold_left
    (fun colors val =>
       if val <? 70 then (colors ++ ["red"])%list
       else if (70 <=? val) && (val <=? 100) then (colors ++ ["green"])%list
       else if (100 <? val) && (val <=? 125) then (colors ++ ["orange"])%list
       else (colors ++ ["red"])%list)
    values [].

(** The frame that is charted: loaded, repaired, filtered ([if filter_type:]
    is false for [None] and for the empty string). *)
Definition trend_data (filter_type : option string) (data0 : DataFrame)
    : DataFrame :=
  let data := add_missing_reading_type data0 in
  match filter_type with
  | Some t => if String.eqb t "" then data else where_reading_type t data
  | None => data
  end.

Definition show_sugar_trend (filter_type : option string) (file : CsvFile)
    : list string * option Figure :=
  match file with
  | None => (["No data available to show trends."], None)
  | Some data0 =>
      let data := trend_data filter_type data0 in
      if len data <? 2 then
        (["Add more daily entries to see your sugar trend."], None)
      else
        let recent_data := tail 7 data in
        let colors := trend_colors (map sugar (rows recent_data)) in
        ([], Some (mkFigure (map sugar (rows recent_data)) colors
                            (map datetime (rows recent_data))))
  end.

(** ** Get History Data (lines 154-163) *)
Definition get_history_data (limit : Z) (file : CsvFile) : DataFrame :=
  match file with
  | None => empty_frame
  | Some data0 =>
      let data := add_missing_reading_type data0 in
      tail limit data
  end.

(** ** Get Status Color (lines 169-177) *)
Definition get_status_color (status : string) : string :=
  match getitem
          [ ("CRITICAL LOW", "🔴"); ("LOW", "🔴"); ("NORMAL", "🟢");
            ("BORDERLINE", "🟡"); ("HIGH", "🔴") ] status with
  | Ok c => c
  | Raise _ => "⚪"
  end.

(** ** Recent History: the Status column (lines 451-460) *)
Definition history_status_list (history_data : DataFrame) : list string :=
  fold_left
    (fun status_list sugar_val =>
       if sugar_val <? 70 then (status_list ++ ["🔴 Low"])%list
       else if (70 <=? sugar_val) && (sugar_val <=? 100)
            then (status_list ++ ["🟢 Normal"])%list
       else if (100 <? sugar_val) && (sugar_val <=? 125)
            then (status_list ++ ["🟡 Borderline"])%list
       else (status_list ++ ["🔴 High"])%list)
    (map sugar (rows history_data)) [].

(** ** Process Submission (lines 252-334) *)

(** The dict stored in [st.session_state.last_result]. *)
Record Result : Type := mkResult {
  res_sugar : Z;
  res_status : string;
  res_color : string;
  res_meaning : string;
  res_diet_yes : list string;
  res_diet_no : list string;
  res_activity : string;
  res_focus : string;
  res_reading_type : string;
  res_reading_type_key : string
}.

(** [st.session_state]; the initial [last_result], [{}], is [None]. *)
Record SessionState : Type := mkSession {
  show_results : bool;
  last_result : option Result
}.

Definition initial_session : SessionState := mkSession false None.

(** What the script can change: the log file and the session. *)
Record World : Type := mkWorld {
  csv : CsvFile;
  session : SessionState
}.

(** What the handler writes on the page. *)
Inductive Output : Type :=
| st_error (msg : string)
| st_write (msg : string).

(** How the handler leaves the script run: [st.stop()] ends the run,
    falling through continues to the sections below, an exception
    aborts it. *)
Inductive Flow : Type :=
| Stopped
| Continues
| Raised (exn : string).

(** Lines 275-319: the chain that fills the result, given the thresholds
    of the reading type. *)
Definition band_logic (sugar : Z) (threshold : Threshold)
    (reading_type_display reading_type_key : string) : Result :=
  if sugar <? 40 then
    mkResult sugar "CRITICAL LOW" "🔴"
      "Your blood sugar is dangerously low. Seek immediate medical help."
      ["Take a fast-acting sugar source immediately."]
      []
      "Avoid any physical activity."
      "Restore blood sugar immediately."
      reading_type_display reading_type_key
  else if sugar <? low threshold then
    mkResult sugar "LOW" "🔴"
      ("Your blood sugar is below the normal range for "
         ++ lower reading_type_display ++ ".")
      ["Take a quick sugar source such as juice or glucose."]
      []
      "Avoid physical activity."
      "Restore blood sugar safely."
      reading_type_display reading_type_key
  else if sugar <=? normal_max threshold then
    mkResult sugar "NORMAL" "🟢"
      ("Your blood sugar is within the healthy range for "
         ++ lower reading_type_display ++ ".")
      ["Continue balanced home-cooked meals."]
      ["Avoid excess sugar."]
      "15–20 minutes of light walking."
      "Maintain a healthy routine."
      reading_type_display reading_type_key
  else if sugar <=? borderline_max threshold then
    mkResult sugar "BORDERLINE" "🟡"
      ("Your blood sugar is slightly elevated for "
         ++ lower reading_type_display ++ ".")
      ["Prefer light meals."]
      ["Reduce sugar and refined carbohydrates."]
      "20 minutes of walking."
      "Improve sugar control."
      reading_type_display reading_type_key
  else
    mkResult sugar "HIGH" "🔴"
      ("Your blood sugar is high for " ++ lower reading_type_display
         ++ ". Medical attention may be needed if this persists.")
      ["Eat light, home-cooked meals."]
      ["Avoid sweets, sugary drinks, and high-carb foods."]
      "25–30 minutes of light to moderate walking."
      "Reduce sugar levels safely."
      reading_type_display reading_type_key.

(** The body of [if submit:].  [now] is the clock reading that
    [save_sugar_history] takes; [reading_type_display] and [sugar] are the
    values of the two widgets. *)
Definition process_submission (now : string) (reading_type_display : string)
    (sugar : Z) (w : World) : World * list Output * Flow :=
  match getitem READING_TYPES reading_type_display with
  | Raise e => (w, [], Raised e)
  | Ok reading_type_key =>
      if sugar <=? 0 then
        (w,
         [st_error "❌ Invalid input: Blood sugar must be a positive value."],
         Stopped)
      else
        let w1 :=
          mkWorld (save_sugar_history now sugar reading_type_key (csv w))
                  (session w) in
        if sugar <? 40 then
          (w1,
           [st_error "🚨 Critical Low Blood Sugar";
            st_write "Take a fast-acting sugar source immediately and seek medical help."],
           Stopped)
        else if sugar >? 400 then
          (w1,
           [st_error "🚨 Extremely High Blood Sugar";
            st_write "Seek medical attention immediately."],
           Stopped)
        else
          match getitem THRESHOLDS reading_type_key with
          | Raise e => (w1, [], Raised e)
          | Ok threshold =>
              let result :=
                band_logic sugar threshold reading_type_display
                           reading_type_key in
              (mkWorld (csv w1) (mkSession true (Some result)), [], Continues)
          end
  end.

(** The status a run of the handler stored in the session, if it ran
    the band logic to the end. *)
Definition stored_result (run : World * list Output * Flow) : option Result :=
  match run with
  | (w, _, Continues) => last_result (session w)
  | _ => None
  end.

Definition stored_status (run : World * list Output * Flow) : option string :=
  option_map res_status (stored_result run).

(** Successive submissions, oldest first: each is a clock reading, a
    value and a stored context key. *)
Definition Reading : Type := (string * string * Z)%type.

Definition reading_row (r : Reading) : Row :=
  let '(timestamp, reading_type, value) := r in
  mkRow timestamp (Some reading_type) value.

Definition append_all (readings : list Reading) (file : CsvFile) : CsvFile :=
  fold_left
    (fun f r =>
       let '(timestamp, reading_type, value) := r in
       save_sugar_history timestamp value reading_type f)
    readings file.

(** ** The page below the form (lines 340-482)

    Of what the script renders, the parts computed from the state are
    kept; the fixed markup (headings, styles, the footer) is left out. *)

(** [d.get(k, default)] *)
Definition get {V : Type} (d : dict V) (k : string) (default : V) : V :=
  match getitem d k with
  | Ok v => v
  | Raise _ => default
  end.

(** [d[k] = v]: an existing key keeps its place. *)
Fixpoint setitem {V : Type} (d : dict V) (k : string) (v : V) : dict V :=
  match d with
  | [] => [(k, v)]
  | (k', v') :: d' =>
      if String.eqb k' k then (k', v) :: d' else (k', v') :: setitem d' k v
  end.

(** A cell of a displayed table. *)
Inductive Cell : Type :=
| text (s : string)
| number (z : Z)
| nan.

(** A displayed table, column by column: header and cells. *)
Definition Table : Type := list (string * list Cell).

(** What the sections put on the page. *)
Inductive Element : Type :=
| el_error (msg : string)
| el_write (msg : string)
| el_info (msg : string)
| el_success (msg : string)
| el_card (title value : string)
| el_pyplot (fig : Figure)
| el_dataframe (table : Table).

Definition of_output (o : Output) : Element :=
  match o with
  | st_error msg => el_error msg
  | st_write msg => el_write msg
  end.

(** *** Section 2: Results Display (lines 340-405)

    [st.session_state.last_result] is indexed by key, which raises
    [KeyError] on the initial [{}]. *)
Definition results_section (s : SessionState) (file : CsvFile)
    : py (list Element) :=
  if show_results s then
    match last_result s with
    | None => Raise "KeyError"
    | Some result =>
        match get_smart_insight (res_reading_type_key result) file with
        | Raise e => Raise e
        | Ok insight =>
            Ok ([el_card "Status" (res_color result ++ " " ++ res_status result);
                 el_card "Blood Sugar" (str_int (res_sugar result) ++ " mg/dL");
                 el_card "Reading Type" (res_reading_type result);
                 el_info (res_meaning result)]
                ++ map (fun item => el_write ("✔️ " ++ item)) (res_diet_yes result)
                ++ map (fun item => el_write ("❌ " ++ item)) (res_diet_no result)
                ++ [el_write (res_activity result);
                    el_success (res_focus result);
                    el_info insight])%list
        end
    end
  else Ok [].

(** *** Section 3: Sugar Trends (lines 415-433) *)
Definition trend_section (show_trend : bool) (filter_by_type : string)
    (file : CsvFile) : py (list Element) :=
  if show_trend then
    let filter_value :=
      if negb (String.eqb filter_by_type "All") then
        match getitem READING_TYPES filter_by_type with
        | Ok key => Ok (Some key)
        | Raise e => Raise e
        end
      else Ok None in
    match filter_value with
    | Raise e => Raise e
    | Ok filter_value =>
        let '(msgs, fig) := show_sugar_trend filter_value file in
        match fig with
        | Some fig => Ok (map el_info msgs ++ [el_pyplot fig])%list
        | None =>
            Ok (map el_info msgs
                  ++ [el_info "No data available to show trends."])%list
        end
    end
  else Ok [].

(** *** Section 4: History Preview (lines 443-482) *)

(** The values of a column of the log.  The model carries the three
    columns the app reads and writes. *)
Definition column_cells (name : string) (df : DataFrame) : list Cell :=
  map (fun r =>
         if String.eqb name "datetime" then text (datetime r)
         else if String.eqb name "sugar" then number (sugar r)
         else if String.eqb name "reading_type" then
           match reading_type r with
           | Some t => text t
           | None => nan
           end
         else nan)
      (rows df).

(** [{v: k for k, v in READING_TYPES.items()}] *)
Definition reading_type_reverse : dict string :=
  fold_left (fun d kv => setitem d (snd kv) (fst kv)) READING_TYPES [].

(** [lambda x: reading_type_reverse.get(x, x)]; only a string can be a
    key of the dict. *)
Definition reverse_label (x : Cell) : Cell :=
  match x with
  | text s => text (get reading_type_reverse s s)
  | _ => x
  end.

Definition DISPLAY_COLUMNS : list string :=
  ["Date/Time"; "Reading Type"; "Blood Sugar (mg/dL)"].

(** Lines 447-468.  Assigning [display_data.columns] renames by position
    and raises [ValueError] unless the frame has three columns;
    [history_data["sugar"]] raises [KeyError] without that column. *)
Definition history_table (history_data : DataFrame) : py Table :=
  if negb (Nat.eqb (List.length (columns history_data)) 3) then
    Raise "ValueError"
  else if negb (has_column "sugar" history_data) then Raise "KeyError"
  else
    let display_data :=
      combine DISPLAY_COLUMNS
              (map (fun c => column_cells c history_data)
                   (columns history_data)) in
    let status_list := history_status_list history_data in
    let display_data :=
      (firstn 3 display_data ++ [("Status", map text status_list)]
         ++ skipn 3 display_data)%list in
    Ok (map (fun col =>
               if String.eqb (fst col) "Reading Type"
               then (fst col, map reverse_label (snd col))
               else col)
            display_data).

(** On the frames [get_history_data] returns, [df.empty] is whether
    there is no row. *)
Definition history_section (file : CsvFile) : py (list Element) :=
  let history_data := get_history_data 10 file in
  if negb (is_empty history_data) then
    match history_table history_data with
    | Ok display_data => Ok [el_dataframe display_data]
    | Raise e => Raise e
    end
  else
    Ok [el_info
          "No history available yet. Submit your first reading to get started!"].

(** *** One run of the script *)

(** The widgets of the page. *)
Record Inputs : Type := mkInputs {
  submit : bool;
  reading_type_display : string;
  sugar_input : Z;
  show_trend : bool;
  filter_by_type : string
}.

(** How a run ends: at the bottom of the script, at an [st.stop()], or on
    an exception. *)
Inductive RunEnd : Type :=
| Finished
| Halted
| Failed (exn : string).

(** The script from line 252 on: the handler when the button was
    pressed, then the three sections, each on the state the handler
    left. *)
Definition run_script (now : string) (i : Inputs) (w : World)
    : World * list Element * RunEnd :=
  let '(w1, outs, flow) :=
    if submit i
    then process_submission now (reading_type_display i) (sugar_input i) w
    else (w, [], Continues) in
  let page0 := map of_output outs in
  match flow with
  | Stopped => (w1, page0, Halted)
  | Raised e => (w1, page0, Failed e)
  | Continues =>
      match results_section (session w1) (csv w1) with
      | Raise e => (w1, page0, Failed e)
      | Ok results =>
          let page1 := (page0 ++ results)%list in
          match trend_section (show_trend i) (filter_by_type i) (csv w1) with
          | Raise e => (w1, page1, Failed e)
          | Ok trends =>
              let page2 := (page1 ++ trends)%list in
              match history_section (csv w1) with
              | Raise e => (w1, page2, Failed e)
              | Ok history => (w1, (page2 ++ history)%list, Finished)
              end
          end
      end
  end.

(** Successive runs, each with its clock reading and its widget values. *)
Definition run_all (runs : list (string * Inputs)) (w : World) : World :=
  fold_left (fun w r => fst (fst (run_script (fst r) (snd r) w))) runs w.

(** ** Notions used in the statements *)

(** Case analysis on the boolean comparisons of the handler. *)
Ltac split_tests :=
  repeat match goal with
    | |- context [?a <? ?b] => destruct (Z.ltb_spec a b)
    | |- context [?a <=? ?b] => destruct (Z.leb_spec a b)
    | |- context [?a >? ?b] => rewrite (Z.gtb_ltb a b)
    | |- context [?a =? ?b] => destruct (Z.eqb_spec a b)
    end.

(** The records a reader sees once the compatibility block has run. *)
Definition repaired_log (file : CsvFile) : list Row :=
  match file with
  | None => []
  | Some df => rows (add_missing_reading_type df)
  end.

(** A file that the context column need not be added to. *)
Definition has_reading_type (file : CsvFile) : Prop :=
  match file with
  | None => True
  | Some df => has_column "reading_type" df = true
  end.

(** What the page shows when the run stops at line 265. *)
Definition CRITICAL_LOW_ADVISORY : list Output :=
  [st_error "🚨 Critical Low Blood Sugar";
   st_write "Take a fast-acting sugar source immediately and seek medical help."].

(** What the page shows when the run stops at line 270. *)
Definition EXTREMELY_HIGH_ADVISORY : list Output :=
  [st_error "🚨 Extremely High Blood Sugar";
   st_write "Seek medical attention immediately."].

(** What the page shows when the run stops at line 257. *)
Definition INVALID_INPUT : list Output :=
  [st_error "❌ Invalid input: Blood sugar must be a positive value."].

(** The three-way comparison of lines 84-89. *)
Definition comparison (yesterday_value today_value : Z) : string :=
  if today_value <? yesterday_value then
    good_progress (yesterday_value - today_value)
  else if today_value >? yesterday_value then
    attention_needed (today_value - yesterday_value)
  else SAME_AS_YESTERDAY.

(** A log that is either not there or holds a record: every file that
    [save_sugar_history] leaves behind is of this kind. *)
Definition holds_a_record (file : CsvFile) : Prop :=
  match file with
  | None => True
  | Some df => rows df <> []
  end.

(** The color of one bar. *)
Definition bar_color (val : Z) : string :=
  if val <? 70 then "red"
  else if (70 <=? val) && (val <=? 100) then "green"
  else if (100 <? val) && (val <=? 125) then "orange"
  else "red".

(** The fixed band of the chart, as a relation between a value and its
    color. *)
Definition chart_band (val : Z) (color : string) : Prop :=
  (val < 70 -> color = "red") /\
  (70 <= val <= 100 -> color = "green") /\
  (100 < val <= 125 -> color = "orange") /\
  (125 < val -> color = "red").

(** The label of one row of the history table. *)
Definition row_status (sugar_val : Z) : string :=
  if sugar_val <? 70 then "🔴 Low"
  else if (70 <=? sugar_val) && (sugar_val <=? 100) then "🟢 Normal"
  else if (100 <? sugar_val) && (sugar_val <=? 125) then "🟡 Borderline"
  else "🔴 High".


(** How severe a status is, from the most urgent low to high. *)
Definition severity (status : string) : nat :=
  if String.eqb status "CRITICAL LOW" then 0
  else if String.eqb status "LOW" then 1
  else if String.eqb status "NORMAL" then 2
  else if String.eqb status "BORDERLINE" then 3
  else 4.

(** The names [get_status_color] knows. *)
Definition STATUS_NAMES : list string :=
  ["CRITICAL LOW"; "LOW"; "NORMAL"; "BORDERLINE"; "HIGH"].

(** A session in which a result is there whenever it is to be shown. *)
Definition session_ok (s : SessionState) : Prop :=
  show_results s = true -> last_result s <> None.

(** A log the history table can show: once loaded it has three columns,
    the time and the value among them. *)
Definition known_columns (file : CsvFile) : Prop :=
  match file with
  | None => True
  | Some df =>
      List.length (columns (add_missing_reading_type df)) = 3%nat
      /\ has_column "datetime" df = true
      /\ has_column "sugar" df = true
  end.

(** The values the two selectboxes and the number input can give. *)
Definition valid_inputs (i : Inputs) : Prop :=
  In (reading_type_display i) (keys READING_TYPES)
  /\ In (filter_by_type i) ("All" :: keys READING_TYPES)
  /\ 0 <= sugar_input i <= 600.

(** The columns of a log that the app started itself. *)
Definition APP_COLUMNS : list string := ["datetime"; "reading_type"; "sugar"].

(** The number of records of the log. *)
Definition len_of_log (file : CsvFile) : Z :=
  Z.of_nat (List.length (history_log file)).

(** The cell under which a stored context is shown. *)
Definition context_cell (r : Row) : Cell :=
  match reading_type r with
  | Some t => text t
  | None => nan
  end.

(** * Properties *)

(** ** The constants *)

Lemma keys_READING_TYPES : keys READING_TYPES = map display_name all_contexts.
Proof. reflexivity. Qed.

Lemma READING_TYPES_context (c : ReadingContext) :
  getitem READING_TYPES (display_name c) = Ok (context_key c).
Proof. destruct c; reflexivity. Qed.

Lemma THRESHOLDS_context (c : ReadingContext) :
  exists t, getitem THRESHOLDS (context_key c) = Ok t
            /\ low t < normal_max t < borderline_max t
            /\ borderline_max t <= warning t
            /\ 40 <= low t /\ borderline_max t <= 400.
Proof.
  destruct c; eexists; (split; [reflexivity | cbn; lia]).
Qed.

(** ** The submission handler *)

(** A run on a value in the emergency-free range stores the result of the
    band logic and falls through. *)
Lemma process_submission_in_range now (c : ReadingContext) v w :
  40 <= v <= 400 ->
  exists t,
    getitem THRESHOLDS (context_key c) = Ok t /\
    process_submission now (display_name c) v w =
      (mkWorld (save_sugar_history now v (context_key c) (csv w))
               (mkSession true
                  (Some (band_logic v t (display_name c) (context_key c)))),
       [], Continues).
Proof.
  intros Hv.
  destruct (THRESHOLDS_context c) as (t & Ht & _).
  exists t. split; [exact Ht|].
  unfold process_submission.
  rewrite READING_TYPES_context.
  split_tests; try lia.
  cbn [csv]. rewrite Ht. reflexivity.
Qed.

Lemma band_logic_status v t d k :
  40 <= v ->
  res_status (band_logic v t d k) =
    if v <? low t then "LOW"
    else if v <=? normal_max t then "NORMAL"
    else if v <=? borderline_max t then "BORDERLINE"
    else "HIGH".
Proof.
  intros Hv. unfold band_logic.
  destruct (Z.ltb_spec v 40); [lia|].
  destruct (v <? low t); [reflexivity|].
  destruct (v <=? normal_max t); [reflexivity|].
  destruct (v <=? borderline_max t); reflexivity.
Qed.

(** C1. For the fasting context the bands are cut exactly at the table's
    boundaries: a submitted 69 is stored as LOW, 70 and 100 as NORMAL, 101
    and 125 as BORDERLINE, and 126 as HIGH, whatever the log and the
    session held before. *)
Theorem fasting_boundaries now w :
  let status v :=
    stored_status (process_submission now (display_name Fasting) v w) in
  status 69 = Some "LOW" /\
  status 70 = Some "NORMAL" /\
  status 100 = Some "NORMAL" /\
  status 101 = Some "BORDERLINE" /\
  status 125 = Some "BORDERLINE" /\
  status 126 = Some "HIGH".
Proof.
  cbv zeta. repeat split; reflexivity.
Qed.

(** C2. For every context and every value from 40 to 400 the handler
    stores a classification whose status is one of LOW, NORMAL, BORDERLINE
    and HIGH, and the whole stored result (status, color, meaning, diet
    lists, activity, focus) is fixed by the value and the context alone:
    the same result comes out at any clock reading, over any log and any
    session. *)
Theorem classification_is_a_function (c : ReadingContext) (v : Z) :
  40 <= v <= 400 ->
  exists r : Result,
    (res_status r = "LOW" \/ res_status r = "NORMAL" \/
     res_status r = "BORDERLINE" \/ res_status r = "HIGH") /\
    forall now w,
      stored_result (process_submission now (display_name c) v w) = Some r.
Proof.
  intros Hv.
  destruct (process_submission_in_range "" c v (mkWorld None initial_session) Hv)
    as (t & Ht & _).
  exists (band_logic v t (display_name c) (context_key c)). split.
  - rewrite band_logic_status by lia.
    destruct (v <? low t); [now left|].
    destruct (v <=? normal_max t); [now right; left|].
    destruct (v <=? borderline_max t); [now right; right; left|].
    now right; right; right.
  - intros now w.
    destruct (process_submission_in_range now c v w Hv) as (t' & Ht' & ->).
    rewrite Ht in Ht'. injection Ht' as <-. reflexivity.
Qed.

Lemma classification_is_a_function_witness :
  40 <= 100 <= 400 /\
  exists r : Result,
    (res_status r = "LOW" \/ res_status r = "NORMAL" \/
     res_status r = "BORDERLINE" \/ res_status r = "HIGH") /\
    forall now w,
      stored_result (process_submission now (display_name Fasting) 100 w)
      = Some r.
Proof.
  split; [lia | apply (classification_is_a_function Fasting 100); lia].
Defined.

(** ** The history store *)

Lemma rows_add_missing_present df :
  has_column "reading_type" df = true -> add_missing_reading_type df = df.
Proof. unfold add_missing_reading_type. now intros ->. Qed.

Lemma rows_add_missing_absent df :
  has_column "reading_type" df = false ->
  rows (add_missing_reading_type df) =
    map (fun r => mkRow (datetime r) (Some "random") (sugar r)) (rows df).
Proof. unfold add_missing_reading_type. now intros ->. Qed.

Lemma has_column_add_missing df :
  has_column "reading_type" (add_missing_reading_type df) = true.
Proof.
  unfold add_missing_reading_type.
  destruct (has_column "reading_type" df) eqn:E; cbn [negb]; [exact E|].
  unfold set_reading_type, has_column in *. rewrite E. cbn [columns].
  rewrite existsb_app. cbn. apply orb_true_r.
Qed.

Lemma repaired_log_present file :
  has_reading_type file -> repaired_log file = history_log file.
Proof.
  destruct file as [df|]; cbn; [|reflexivity].
  intros H. now rewrite rows_add_missing_present.
Qed.

Lemma repaired_log_sugar file :
  map sugar (repaired_log file) = map sugar (history_log file).
Proof.
  destruct file as [df|]; cbn; [|reflexivity].
  destruct (has_column "reading_type" df) eqn:E.
  - now rewrite rows_add_missing_present.
  - rewrite rows_add_missing_absent by exact E.
    rewrite map_map. reflexivity.
Qed.

Lemma repaired_log_datetime file :
  map datetime (repaired_log file) = map datetime (history_log file).
Proof.
  destruct file as [df|]; cbn; [|reflexivity].
  destruct (has_column "reading_type" df) eqn:E.
  - now rewrite rows_add_missing_present.
  - rewrite rows_add_missing_absent by exact E.
    rewrite map_map. reflexivity.
Qed.

(** An append writes the repaired old records followed by the new one. *)
Lemma save_sugar_history_log timestamp v k file :
  history_log (save_sugar_history timestamp v k file) =
    (repaired_log file ++ [mkRow timestamp (Some k) v])%list.
Proof. destruct file as [df|]; reflexivity. Qed.

Lemma save_sugar_history_has_reading_type timestamp v k file :
  has_reading_type (save_sugar_history timestamp v k file).
Proof.
  destruct file as [df|]; [|reflexivity].
  unfold has_reading_type, save_sugar_history, has_column.
  cbn [concat columns]. rewrite existsb_app.
  change (existsb (String.eqb "reading_type")
            (columns (add_missing_reading_type df)))
    with (has_column "reading_type" (add_missing_reading_type df)).
  rewrite has_column_add_missing. reflexivity.
Qed.

(** Every append adds one record, so a file that the app wrote is never
    without records. *)
Lemma save_sugar_history_length timestamp v k file :
  List.length (history_log (save_sugar_history timestamp v k file)) =
    S (List.length (history_log file)).
Proof.
  rewrite save_sugar_history_log, length_app. cbn [List.length].
  rewrite <- (length_map sugar (repaired_log file)), repaired_log_sugar.
  rewrite length_map. lia.
Qed.

(** C3. A positive reading below 40 or above 400 is appended to the log
    (after the older records, which keep their values), the session keeps
    the result it had, no band is computed, and the run stops on the
    emergency advisory: the critical-low one below 40, the extremely-high
    one above 400.  In particular 39 takes the critical-low path and 401
    the extremely-high path in every context. *)
Theorem emergency_reading_saved_then_stopped now (c : ReadingContext) w :
  (forall v, 0 < v -> v < 40 \/ 400 < v ->
     exists advisory,
       process_submission now (display_name c) v w =
         (mkWorld (save_sugar_history now v (context_key c) (csv w))
                  (session w),
          advisory, Stopped) /\
       history_log (save_sugar_history now v (context_key c) (csv w)) =
         (repaired_log (csv w) ++ [mkRow now (Some (context_key c)) v])%list /\
       map sugar (repaired_log (csv w)) = map sugar (history_log (csv w)) /\
       (v < 40 -> advisory = CRITICAL_LOW_ADVISORY) /\
       (400 < v -> advisory = EXTREMELY_HIGH_ADVISORY)) /\
  snd (fst (process_submission now (display_name c) 39 w))
    = CRITICAL_LOW_ADVISORY /\
  snd (fst (process_submission now (display_name c) 401 w))
    = EXTREMELY_HIGH_ADVISORY.
Proof.
  split; [|split].
  - intros v Hpos Hv.
    unfold process_submission. rewrite READING_TYPES_context.
    destruct (Z.leb_spec v 0); [lia|].
    destruct (Z.ltb_spec v 40).
    + eexists. split; [reflexivity|].
      split; [apply save_sugar_history_log|].
      split; [apply repaired_log_sugar|].
      split; [reflexivity | lia].
    + rewrite Z.gtb_ltb. destruct (Z.ltb_spec 400 v); [|lia].
      eexists. split; [reflexivity|].
      split; [apply save_sugar_history_log|].
      split; [apply repaired_log_sugar|].
      split; [lia | reflexivity].
  - unfold process_submission. rewrite READING_TYPES_context. reflexivity.
  - unfold process_submission. rewrite READING_TYPES_context. reflexivity.
Qed.

Lemma emergency_reading_saved_then_stopped_witness :
  0 < 39 /\ (39 < 40 \/ 400 < 39) /\
  exists advisory,
    process_submission "2024-01-01 08:00:00" (display_name PostLunch) 39
        (mkWorld None initial_session) =
      (mkWorld (save_sugar_history "2024-01-01 08:00:00" 39
                  (context_key PostLunch) None)
               initial_session,
       advisory, Stopped) /\
    advisory = CRITICAL_LOW_ADVISORY.
Proof.
  split; [lia|]. split; [left; lia|].
  destruct (emergency_reading_saved_then_stopped "2024-01-01 08:00:00"
              PostLunch (mkWorld None initial_session)) as [H _].
  destruct (H 39 ltac:(lia) ltac:(left; lia)) as (a & Ha & _ & _ & Hlow & _).
  exists a. split; [exact Ha | apply Hlow; lia].
Defined.

(** C4. A reading that is zero or negative is rejected before anything
    else happens: the run stops on the validation message, and the log
    and the session are those it started with.  Whatever label is
    submitted, the log is left as it was. *)
Theorem nonpositive_reading_rejected now (c : ReadingContext) v w :
  v <= 0 ->
  process_submission now (display_name c) v w = (w, INVALID_INPUT, Stopped) /\
  forall label,
    csv (fst (fst (process_submission now label v w))) = csv w.
Proof.
  intros Hv. split.
  - unfold process_submission. rewrite READING_TYPES_context.
    destruct (Z.leb_spec v 0); [reflexivity | lia].
  - intros label. unfold process_submission.
    destruct (getitem READING_TYPES label); [|reflexivity].
    destruct (Z.leb_spec v 0); [reflexivity | lia].
Qed.

Lemma nonpositive_reading_rejected_witness :
  0 <= 0 /\
  process_submission "2024-01-01 08:00:00" (display_name Fasting) 0
      (mkWorld None initial_session)
    = (mkWorld None initial_session, INVALID_INPUT, Stopped).
Proof.
  split; [lia|].
  apply (nonpositive_reading_rejected "2024-01-01 08:00:00" Fasting 0
           (mkWorld None initial_session)); lia.
Defined.

(** ** Append then tail *)

Lemma lastn_app_length {A : Type} (l1 l2 : list A) :
  lastn (List.length l2) (l1 ++ l2)%list = l2.
Proof.
  unfold lastn. rewrite length_app.
  replace (List.length l1 + List.length l2 - List.length l2)%nat
    with (List.length l1) by lia.
  rewrite skipn_app, skipn_all, Nat.sub_diag. reflexivity.
Qed.

(** On a file that has the context column, appends only add records. *)
Lemma append_all_log readings : forall file,
  has_reading_type file ->
  history_log (append_all readings file) =
    (history_log file ++ map reading_row readings)%list
  /\ has_reading_type (append_all readings file).
Proof.
  induction readings as [|[[timestamp k] v] readings IH]; intros file Hfile.
  - cbn. rewrite app_nil_r. split; [reflexivity | exact Hfile].
  - cbn [append_all fold_left].
    destruct (IH (save_sugar_history timestamp v k file)) as [Hlog Hcol].
    { apply save_sugar_history_has_reading_type. }
    split; [|exact Hcol].
    unfold append_all in Hlog. rewrite Hlog.
    rewrite save_sugar_history_log, repaired_log_present by exact Hfile.
    rewrite <- app_assoc. reflexivity.
Qed.

(** From any file, the log after some appends ends with the appended
    records, in the order of the appends. *)
Lemma append_all_any readings file :
  exists older,
    history_log (append_all readings file) =
      (older ++ map reading_row readings)%list
    /\ (readings <> [] -> has_reading_type (append_all readings file)).
Proof.
  destruct readings as [|[[timestamp k] v] readings].
  - exists (history_log file). cbn. rewrite app_nil_r.
    split; [reflexivity | congruence].
  - exists (repaired_log file).
    destruct (append_all_log readings (save_sugar_history timestamp v k file))
      as [Hlog Hcol].
    { apply save_sugar_history_has_reading_type. }
    cbn [append_all fold_left]. unfold append_all in Hlog, Hcol.
    split; [|intros _; exact Hcol].
    rewrite Hlog, save_sugar_history_log, <- app_assoc. reflexivity.
Qed.

(** C5. From any state of the store (no file, a file with or without the
    context column), appending [k] readings and then reading the last [k]
    returns exactly those readings, in submission order; and when there is
    no file, reading the last [n] returns the empty frame for every [n],
    not an error. *)
Theorem append_then_tail (readings : list Reading) (file : CsvFile) :
  rows (get_history_data (Z.of_nat (List.length readings))
          (append_all readings file))
    = map reading_row readings
  /\ forall n, get_history_data n None = empty_frame
               /\ rows (get_history_data n None) = [].
Proof.
  split; [|intros n; split; reflexivity].
  destruct (append_all_any readings file) as (older & Hlog & Hcol).
  destruct readings as [|r readings].
  - cbn. destruct file as [df|]; reflexivity.
  - specialize (Hcol ltac:(discriminate)).
    destruct (append_all (r :: readings) file) as [df|] eqn:E.
    + cbn in Hcol, Hlog.
      unfold get_history_data. rewrite rows_add_missing_present by exact Hcol.
      unfold tail. cbn [rows].
      destruct (Z.eqb_spec (Z.of_nat (List.length (r :: readings))) 0) as [H0|_].
      { cbn [List.length] in H0. lia. }
      destruct (Z.ltb_spec 0 (Z.of_nat (List.length (r :: readings)))) as [_|H0].
      2:{ cbn [List.length] in H0. lia. }
      rewrite Nat2Z.id, Hlog.
      rewrite <- (length_map reading_row (r :: readings)).
      apply lastn_app_length.
    + cbn in Hlog. destruct older; discriminate.
Qed.

(** ** The insight *)

Lemma two_last {A : Type} (l : list A) :
  (2 <= List.length l)%nat -> exists older y t, l = (older ++ [y; t])%list.
Proof.
  intros Hl.
  destruct (exists_last (l := l)) as (l1 & t & ->).
  { destruct l; [cbn in Hl; lia | discriminate]. }
  rewrite length_app in Hl. cbn in Hl.
  destruct (exists_last (l := l1)) as (older & y & ->).
  { destruct l1; [cbn in Hl; lia | discriminate]. }
  exists older, y, t. rewrite <- app_assoc. reflexivity.
Qed.

Lemma iloc_last_two df older y t :
  rows df = (older ++ [y; t])%list ->
  (len df <? 2) = false /\ iloc df (-1) = Ok t /\ iloc df (-2) = Ok y.
Proof.
  intros Hrows.
  assert (Hlen : len df = Z.of_nat (List.length older) + 2).
  { unfold len. rewrite Hrows, length_app. cbn [List.length]. lia. }
  split; [|split].
  - apply Z.ltb_ge. lia.
  - unfold iloc. rewrite Hlen.
    replace (Z.to_nat (Z.of_nat (List.length older) + 2 + -1))
      with (List.length older + 1)%nat by lia.
    destruct (Z.leb_spec (- -1) (Z.of_nat (List.length older) + 2)); [|lia].
    cbn [Z.ltb Z.compare andb]. rewrite Hrows.
    rewrite nth_error_app2 by lia.
    replace (List.length older + 1 - List.length older)%nat with 1%nat by lia.
    reflexivity.
  - unfold iloc. rewrite Hlen.
    replace (Z.to_nat (Z.of_nat (List.length older) + 2 + -2))
      with (List.length older + 0)%nat by lia.
    destruct (Z.leb_spec (- -2) (Z.of_nat (List.length older) + 2)); [|lia].
    cbn [Z.ltb Z.compare andb]. rewrite Hrows.
    rewrite nth_error_app2 by lia.
    replace (List.length older + 0 - List.length older)%nat with 0%nat by lia.
    reflexivity.
Qed.

Lemma add_missing_last_two df older y t :
  rows df = (older ++ [y; t])%list ->
  exists older' y' t',
    rows (add_missing_reading_type df) = (older' ++ [y'; t'])%list
    /\ sugar y' = sugar y /\ sugar t' = sugar t.
Proof.
  intros Hrows.
  destruct (has_column "reading_type" df) eqn:E.
  - rewrite rows_add_missing_present by exact E.
    exists older, y, t. auto.
  - rewrite rows_add_missing_absent by exact E.
    rewrite Hrows, map_app. cbn [map].
    eexists _, _, _. split; [reflexivity|]. split; reflexivity.
Qed.

(** With two records or more, the insight compares the last two of the
    whole log. *)
Lemma get_smart_insight_last_two reading_type df older y t :
  rows df = (older ++ [y; t])%list ->
  get_smart_insight reading_type (Some df) =
    Ok (comparison (sugar y) (sugar t)).
Proof.
  intros Hrows.
  destruct (add_missing_last_two df older y t Hrows)
    as (older' & y' & t' & Hrows' & Hy & Ht).
  destruct (iloc_last_two _ _ _ _ Hrows') as (Hlen & Hlast & Hprev).
  unfold get_smart_insight, insight_data.
  rewrite Hlen, Hlast, Hprev, Hy, Ht.
  unfold comparison.
  destruct (sugar t <? sugar y); [reflexivity|].
  destruct (sugar t >? sugar y); reflexivity.
Qed.

(** With fewer than two records in the file, the insight is the
    first-entry message. *)
Lemma get_smart_insight_short reading_type df :
  (List.length (rows df) < 2)%nat ->
  get_smart_insight reading_type (Some df) = Ok FIRST_ENTRY.
Proof.
  intros Hl. unfold get_smart_insight, insight_data.
  assert (Hlen : len (add_missing_reading_type df) = len df).
  { unfold len. f_equal.
    destruct (has_column "reading_type" df) eqn:E.
    - now rewrite rows_add_missing_present.
    - rewrite rows_add_missing_absent by exact E. now rewrite length_map. }
  rewrite Hlen. unfold len.
  destruct (Z.ltb_spec (Z.of_nat (List.length (rows df))) 2); [reflexivity|lia].
Qed.

(** The insight never raises. *)
Lemma get_smart_insight_returns reading_type file :
  exists msg, get_smart_insight reading_type file = Ok msg.
Proof.
  destruct file as [df|]; [|now exists NO_HISTORY].
  destruct (Nat.lt_ge_cases (List.length (rows df)) 2) as [Hl|Hl].
  - eexists. now apply get_smart_insight_short.
  - destruct (two_last _ Hl) as (older & y & t & Hrows).
    eexists. now apply (get_smart_insight_last_two _ _ older y t).
Qed.

(** A file on disk that holds no record at all (a header line only) is
    not what [save_sugar_history] writes; on such a file the insight is
    the first-entry message. *)
Lemma get_smart_insight_header_only reading_type cols :
  get_smart_insight reading_type (Some (mkFrame cols [])) = Ok FIRST_ENTRY.
Proof. apply get_smart_insight_short. cbn. lia. Qed.

Lemma save_sugar_history_holds_a_record timestamp v k file :
  holds_a_record (save_sugar_history timestamp v k file).
Proof.
  pose proof (save_sugar_history_length timestamp v k file) as H.
  destruct (save_sugar_history timestamp v k file) as [df|]; [|exact I].
  cbn in *. intros E. rewrite E in H. discriminate.
Qed.

(** C6. Over every stored log the insight for one context is the insight
    for any other: the argument is not read.  The text is fixed by the
    values of the last two records of the whole log: two logs that end
    with the same two values get the same insight, whatever the contexts
    asked for and whatever the contexts and times of the records. *)
Theorem insight_ignores_context (file : CsvFile) (c1 c2 : string) :
  get_smart_insight c1 file = get_smart_insight c2 file /\
  forall file' older older' y t y' t',
    history_log file = (older ++ [y; t])%list ->
    history_log file' = (older' ++ [y'; t'])%list ->
    sugar y = sugar y' -> sugar t = sugar t' ->
    get_smart_insight c1 file = get_smart_insight c2 file'.
Proof.
  split; [reflexivity|].
  intros file' older older' y t y' t' H H' Hy Ht.
  destruct file as [df|]; [|destruct older; discriminate].
  destruct file' as [df'|]; [|destruct older'; discriminate].
  cbn in H, H'.
  rewrite (get_smart_insight_last_two c1 df older y t H).
  rewrite (get_smart_insight_last_two c2 df' older' y' t' H').
  now rewrite Hy, Ht.
Qed.

Lemma insight_ignores_context_witness :
  let log1 := Some (mkFrame ["datetime"; "reading_type"; "sugar"]
                [mkRow "2024-01-01 08:00:00" (Some "fasting") 100;
                 mkRow "2024-01-02 08:00:00" (Some "fasting") 90]) in
  let log2 := Some (mkFrame ["datetime"; "sugar"]
                [mkRow "2023-05-01 20:00:00" None 250;
                 mkRow "2023-05-02 13:00:00" None 100;
                 mkRow "2023-05-03 21:00:00" None 90]) in
  get_smart_insight "fasting" log1 = get_smart_insight "post_lunch" log2.
Proof.
  cbv zeta.
  refine (proj2 (insight_ignores_context _ "fasting" "post_lunch")
            _ [] [mkRow "2023-05-01 20:00:00" None 250] _ _ _ _ _ _ _ _);
    reflexivity.
Defined.



(** ** Legacy logs *)

Lemma Forall_skipn_of {A : Type} (P : A -> Prop) n (l : list A) :
  Forall P l -> Forall P (skipn n l).
Proof.
  intros H. rewrite <- (firstn_skipn n l) in H.
  apply Forall_app in H. tauto.
Qed.

Lemma Forall_tail (P : Row -> Prop) n df :
  Forall P (rows df) -> Forall P (rows (tail n df)).
Proof.
  intros H. unfold tail. cbn [rows].
  destruct (n =? 0); [constructor|].
  destruct (0 <? n); [unfold lastn|]; now apply Forall_skipn_of.
Qed.

Lemma Forall_random_repaired df :
  has_column "reading_type" df = false ->
  Forall (fun r => reading_type r = Some "random")
         (rows (add_missing_reading_type df)).
Proof.
  intros E. rewrite rows_add_missing_absent by exact E.
  apply Forall_map, Forall_forall. reflexivity.
Qed.

(** C8. A stored log without the context column gets context [random]
    on every one of its rows wherever it is loaded: in the file an append
    writes back (old rows first, times and values kept, then the new
    record), in the frame the insight works on, and in the frame the
    history read returns.  None of the three raises: the append and the
    history read are total, and the insight returns a message. *)
Theorem legacy_rows_read_as_random (df : DataFrame) :
  has_column "reading_type" df = false ->
  let as_random r := mkRow (datetime r) (Some "random") (sugar r) in
  (forall timestamp v k,
     history_log (save_sugar_history timestamp v k (Some df)) =
       (map as_random (rows df) ++ [mkRow timestamp (Some k) v])%list) /\
  (forall reading_type,
     exists data msg,
       insight_data (Some df) = Some data /\
       rows data = map as_random (rows df) /\
       get_smart_insight reading_type (Some df) = Ok msg) /\
  (forall limit,
     Forall (fun r => reading_type r = Some "random")
            (rows (get_history_data limit (Some df))) /\
     (len df <= limit -> 0 < limit ->
      rows (get_history_data limit (Some df)) = map as_random (rows df))).
Proof.
  intros E as_random. split; [|split].
  - intros timestamp v k. rewrite save_sugar_history_log. cbn [repaired_log].
    now rewrite rows_add_missing_absent.
  - intros rt. destruct (get_smart_insight_returns rt (Some df)) as [msg Hmsg].
    exists (add_missing_reading_type df), msg.
    split; [reflexivity|]. split; [|exact Hmsg].
    now apply rows_add_missing_absent.
  - intros limit. split.
    + unfold get_history_data. apply Forall_tail. now apply Forall_random_repaired.
    + intros Hlen Hpos. unfold get_history_data, tail. cbn [rows].
      destruct (Z.eqb_spec limit 0); [lia|].
      destruct (Z.ltb_spec 0 limit); [|lia].
      rewrite rows_add_missing_absent by exact E.
      unfold lastn. rewrite length_map. unfold len in Hlen.
      replace (List.length (rows df) - Z.to_nat limit)%nat with 0%nat by lia.
      reflexivity.
Qed.

Lemma legacy_rows_read_as_random_witness :
  let df := mkFrame ["datetime"; "sugar"]
              [mkRow "2023-05-01 20:00:00" None 250;
               mkRow "2023-05-02 13:00:00" None 100] in
  has_column "reading_type" df = false /\
  rows (get_history_data 10 (Some df)) =
    [mkRow "2023-05-01 20:00:00" (Some "random") 250;
     mkRow "2023-05-02 13:00:00" (Some "random") 100].
Proof.
  cbv zeta. split; [reflexivity|].
  refine (proj2 (proj2 (proj2 (legacy_rows_read_as_random
            (mkFrame ["datetime"; "sugar"]
               [mkRow "2023-05-01 20:00:00" None 250;
                mkRow "2023-05-02 13:00:00" None 100])
            eq_refl)) 10) _ _);
    cbn; lia.
Defined.

(** ** Fixed bands of the chart and of the history table *)

(** A loop that appends one label per value builds the list of labels. *)
Lemma fold_left_append {A B : Type} (step : list B -> A -> list B)
    (label : A -> B) :
  (forall acc a, step acc a = (acc ++ [label a])%list) ->
  forall values acc,
    fold_left step values acc = (acc ++ map label values)%list.
Proof.
  intros Hstep values.
  induction values as [|a values IH]; intros acc; cbn.
  - now rewrite app_nil_r.
  - rewrite IH, Hstep, <- app_assoc. reflexivity.
Qed.

Lemma trend_colors_map values : trend_colors values = map bar_color values.
Proof.
  unfold trend_colors.
  rewrite (fold_left_append _ bar_color); [reflexivity|].
  intros acc val. unfold bar_color.
  destruct (val <? 70); [reflexivity|].
  destruct ((70 <=? val) && (val <=? 100)); [reflexivity|].
  destruct ((100 <? val) && (val <=? 125)); reflexivity.
Qed.

Lemma bar_color_band val : chart_band val (bar_color val).
Proof.
  unfold chart_band, bar_color.
  destruct (Z.ltb_spec val 70), (Z.leb_spec 70 val), (Z.leb_spec val 100),
    (Z.ltb_spec 100 val), (Z.leb_spec val 125);
    cbn [andb]; repeat split; intros; try reflexivity; lia.
Qed.

Lemma Forall2_map_right {A B : Type} (R : A -> B -> Prop) (f : A -> B) l :
  (forall a, R a (f a)) -> Forall2 R l (map f l).
Proof. intros H. induction l; cbn; constructor; auto. Qed.

Lemma length_lastn {A : Type} k (l : list A) :
  (List.length (lastn k l) <= k)%nat.
Proof. unfold lastn. rewrite length_skipn. lia. Qed.

(** C9. Whenever the trend chart is drawn, its bars are the most recent
    seven (at most) of the retained entries, in stored order, and the
    color of each bar follows one fixed band of its value alone: red
    below 70, green from 70 to 100, orange above 100 up to 125, red above
    125.  The context of an entry plays no part: the colors are computed
    from the bar heights. *)
Theorem trend_colors_fixed_band (filter_type : option string)
    (file : CsvFile) (msgs : list string) (fig : Figure) :
  show_sugar_trend filter_type file = (msgs, Some fig) ->
  exists data0,
    file = Some data0 /\
    bar_heights fig =
      map sugar (lastn 7 (rows (trend_data filter_type data0))) /\
    (List.length (bar_heights fig) <= 7)%nat /\
    bar_colors fig = trend_colors (bar_heights fig) /\
    Forall2 chart_band (bar_heights fig) (bar_colors fig).
Proof.
  unfold show_sugar_trend. destruct file as [data0|]; [|discriminate].
  destruct (len (trend_data filter_type data0) <? 2); [discriminate|].
  intros H. injection H as _ <-. cbn [bar_heights bar_colors].
  exists data0. split; [reflexivity|].
  change (rows (tail 7 (trend_data filter_type data0)))
    with (lastn 7 (rows (trend_data filter_type data0))).
  split; [reflexivity|]. split.
  - rewrite length_map. apply length_lastn.
  - split; [reflexivity|].
    rewrite trend_colors_map. apply Forall2_map_right, bar_color_band.
Qed.

Lemma trend_colors_fixed_band_witness :
  let file := Some (mkFrame ["datetime"; "reading_type"; "sugar"]
                [mkRow "2024-01-01 08:00:00" (Some "fasting") 69;
                 mkRow "2024-01-01 14:00:00" (Some "post_lunch") 130;
                 mkRow "2024-01-02 08:00:00" (Some "fasting") 100;
                 mkRow "2024-01-02 21:00:00" (Some "post_dinner") 125]) in
  exists fig,
    show_sugar_trend None file = ([], Some fig) /\
    bar_heights fig = [69; 130; 100; 125] /\
    Forall2 chart_band (bar_heights fig) (bar_colors fig).
Proof.
  intros file.
  eexists. split; [reflexivity|]. split; [reflexivity|].
  match goal with
  | |- Forall2 _ (bar_heights ?f) _ =>
      destruct (trend_colors_fixed_band None file [] f eq_refl)
        as (data0 & _ & _ & _ & _ & H)
  end.
  exact H.
Defined.

Lemma history_status_list_map history_data :
  history_status_list history_data =
    map row_status (map sugar (rows history_data)).
Proof.
  unfold history_status_list.
  rewrite (fold_left_append _ row_status); [reflexivity|].
  intros acc val. unfold row_status.
  destruct (val <? 70); [reflexivity|].
  destruct ((70 <=? val) && (val <=? 100)); [reflexivity|].
  destruct ((100 <? val) && (val <=? 125)); reflexivity.
Qed.



(** * Further properties of the script *)

(** ** The handler on any label and value *)

Lemma getitem_missing {V : Type} (d : dict V) k :
  ~ In k (keys d) -> getitem d k = Raise "KeyError".
Proof.
  induction d as [|[k' v] d IH]; cbn; intros H; [reflexivity|].
  destruct (String.eqb_spec k' k) as [->|_]; [tauto|].
  apply IH. tauto.
Qed.

Lemma label_is_context label :
  In label (keys READING_TYPES) -> exists c, label = display_name c.
Proof.
  rewrite keys_READING_TYPES. intros H.
  apply in_map_iff in H. destruct H as (c & <- & _). now exists c.
Qed.

(** The four ways a run of the handler on a context label can go. *)
Lemma process_submission_cases now (c : ReadingContext) v w :
  exists t,
    getitem THRESHOLDS (context_key c) = Ok t /\
    process_submission now (display_name c) v w =
      if v <=? 0 then (w, INVALID_INPUT, Stopped)
      else
        let w1 :=
          mkWorld (save_sugar_history now v (context_key c) (csv w))
                  (session w) in
        if v <? 40 then (w1, CRITICAL_LOW_ADVISORY, Stopped)
        else if v >? 400 then (w1, EXTREMELY_HIGH_ADVISORY, Stopped)
        else (mkWorld (csv w1)
                (mkSession true
                   (Some (band_logic v t (display_name c) (context_key c)))),
              [], Continues).
Proof.
  destruct (THRESHOLDS_context c) as (t & Ht & _).
  exists t. split; [exact Ht|].
  unfold process_submission. rewrite READING_TYPES_context.
  destruct (v <=? 0); [reflexivity|].
  destruct (v <? 40); [reflexivity|].
  destruct (v >? 400); [reflexivity|].
  cbn [csv]. rewrite Ht. reflexivity.
Qed.

(** X1. A label that is not a key of [READING_TYPES] makes the handler
    raise [KeyError] before anything is checked or saved; a label of the
    selectbox never makes it raise, whatever the value: every stored key
    has its thresholds. *)
Theorem submission_raises_only_on_unknown_label now v w :
  (forall label, ~ In label (keys READING_TYPES) ->
     process_submission now label v w = (w, [], Raised "KeyError")) /\
  (forall label, In label (keys READING_TYPES) ->
     forall e, snd (process_submission now label v w) <> Raised e).
Proof.
  split.
  - intros label H. unfold process_submission.
    now rewrite (getitem_missing _ _ H).
  - intros label H e. destruct (label_is_context _ H) as [c ->].
    destruct (process_submission_cases now c v w) as (t & _ & ->).
    destruct (v <=? 0); [discriminate|]. cbv zeta.
    destruct (v <? 40); [discriminate|].
    destruct (v >? 400); discriminate.
Qed.

Lemma submission_raises_only_on_unknown_label_witness :
  process_submission "2024-01-01 08:00:00" "Bedtime" 90
      (mkWorld None initial_session)
    = (mkWorld None initial_session, [], Raised "KeyError")
  /\ snd (process_submission "2024-01-01 08:00:00" "After Dinner" 90
            (mkWorld None initial_session)) <> Raised "KeyError".
Proof.
  destruct (submission_raises_only_on_unknown_label "2024-01-01 08:00:00" 90
              (mkWorld None initial_session)) as [Hout Hin].
  split.
  - apply Hout. cbn. intros [H|[H|[H|[H|[H|[]]]]]]; discriminate.
  - apply Hin. cbn. tauto.
Defined.

(** X2. When the handler falls through to the results, the value lies
    between 40 and 400, nothing was written on the page, the session
    holds the result for the submitted value and label (never CRITICAL
    LOW: that branch of the chain cannot be reached), and the last record
    of the log is that reading under the key of the label. *)
Theorem continued_run_stores_what_it_saved now label v w w' outs :
  process_submission now label v w = (w', outs, Continues) ->
  40 <= v <= 400 /\ outs = [] /\
  exists r,
    session w' = mkSession true (Some r) /\
    res_sugar r = v /\ res_reading_type r = label /\
    getitem READING_TYPES label = Ok (res_reading_type_key r) /\
    res_status r <> "CRITICAL LOW" /\
    history_log (csv w') =
      (repaired_log (csv w)
         ++ [mkRow now (Some (res_reading_type_key r)) v])%list.
Proof.
  unfold process_submission.
  destruct (getitem READING_TYPES label) as [key|] eqn:Hkey; [|discriminate].
  destruct (Z.leb_spec v 0); [discriminate|].
  destruct (Z.ltb_spec v 40); [discriminate|].
  rewrite Z.gtb_ltb. destruct (Z.ltb_spec 400 v); [discriminate|].
  cbn [csv].
  destruct (getitem THRESHOLDS key) as [t|]; [|discriminate].
  intros Hrun. injection Hrun as <- <-.
  split; [lia|]. split; [reflexivity|].
  exists (band_logic v t label key). cbn [session csv].
  split; [reflexivity|].
  assert (Hv : (v <? 40) = false) by (apply Z.ltb_ge; lia).
  repeat split.
  - unfold band_logic. rewrite Hv.
    destruct (v <? low t), (v <=? normal_max t), (v <=? borderline_max t);
      reflexivity.
  - unfold band_logic. rewrite Hv.
    destruct (v <? low t), (v <=? normal_max t), (v <=? borderline_max t);
      reflexivity.
  - unfold band_logic. rewrite Hv.
    destruct (v <? low t), (v <=? normal_max t), (v <=? borderline_max t);
      reflexivity.
  - rewrite band_logic_status by lia.
    destruct (v <? low t), (v <=? normal_max t), (v <=? borderline_max t);
      discriminate.
  - rewrite save_sugar_history_log. f_equal. f_equal. f_equal. f_equal.
    unfold band_logic. rewrite Hv.
    destruct (v <? low t), (v <=? normal_max t), (v <=? borderline_max t);
      reflexivity.
Qed.

Lemma continued_run_stores_what_it_saved_witness :
  exists r,
    session (fst (fst (process_submission "2024-01-01 08:00:00" "After Lunch"
                         130 (mkWorld None initial_session))))
      = mkSession true (Some r)
    /\ res_sugar r = 130 /\ res_reading_type r = "After Lunch"
    /\ res_status r <> "CRITICAL LOW".
Proof.
  destruct (continued_run_stores_what_it_saved "2024-01-01 08:00:00"
              "After Lunch" 130 (mkWorld None initial_session) _ _ eq_refl)
    as (_ & _ & r & Hs & Hv & Hl & _ & Hc & _).
  exists r. repeat split; assumption.
Defined.

(** X3. For every context and every value from 40 to 400, with the
    thresholds of the context: the stored status is LOW exactly below
    [low], NORMAL exactly from [low] to [normal_max], BORDERLINE exactly
    above [normal_max] up to [borderline_max], and HIGH exactly above
    [borderline_max]. *)
Theorem status_bands_exact now (c : ReadingContext) v w :
  40 <= v <= 400 ->
  exists t,
    getitem THRESHOLDS (context_key c) = Ok t /\
    let status :=
      stored_status (process_submission now (display_name c) v w) in
    (status = Some "LOW" <-> v < low t) /\
    (status = Some "NORMAL" <-> low t <= v <= normal_max t) /\
    (status = Some "BORDERLINE" <-> normal_max t < v <= borderline_max t) /\
    (status = Some "HIGH" <-> borderline_max t < v).
Proof.
  intros Hv.
  destruct (THRESHOLDS_context c) as (t0 & Ht0 & Hord & _).
  destruct (process_submission_in_range now c v w Hv) as (t & Ht & Hrun).
  rewrite Ht0 in Ht. injection Ht as <-.
  exists t0. split; [exact Ht0|].
  rewrite Hrun. unfold stored_status, stored_result.
  cbn [session last_result option_map].
  rewrite band_logic_status by lia.
  destruct (Z.ltb_spec v (low t0)), (Z.leb_spec v (normal_max t0)),
    (Z.leb_spec v (borderline_max t0));
    repeat split; intros; try discriminate; try reflexivity; lia.
Qed.

Lemma status_bands_exact_witness :
  40 <= 140 <= 400 /\
  stored_status (process_submission "2024-01-01 08:00:00"
                   (display_name RandomReading) 140
                   (mkWorld None initial_session)) = Some "BORDERLINE".
Proof.
  split; [lia|].
  destruct (status_bands_exact "2024-01-01 08:00:00" RandomReading 140
              (mkWorld None initial_session) ltac:(lia))
    as (t & Ht & _ & _ & Hb & _).
  apply Hb. injection Ht as <-. cbn. lia.
Defined.

(** X4. Within a context a higher value never gets a milder status:
    along CRITICAL LOW, LOW, NORMAL, BORDERLINE, HIGH the status of the
    band chain does not go down when the value goes up. *)
Theorem status_monotone (c : ReadingContext) t label key v1 v2 :
  getitem THRESHOLDS (context_key c) = Ok t ->
  v1 <= v2 ->
  (severity (res_status (band_logic v1 t label key))
   <= severity (res_status (band_logic v2 t label key)))%nat.
Proof.
  intros Ht Hle.
  destruct (THRESHOLDS_context c) as (t0 & Ht0 & Hord & _ & Hlow & _).
  rewrite Ht in Ht0. injection Ht0 as <-.
  unfold band_logic.
  destruct (Z.ltb_spec v1 40), (Z.ltb_spec v1 (low t)),
    (Z.leb_spec v1 (normal_max t)), (Z.leb_spec v1 (borderline_max t)),
    (Z.ltb_spec v2 40), (Z.ltb_spec v2 (low t)),
    (Z.leb_spec v2 (normal_max t)), (Z.leb_spec v2 (borderline_max t));
    cbn; try lia.
Qed.

Lemma status_monotone_witness :
  (severity (res_status (band_logic 39 (mkThreshold 70 100 125 126)
                           "Fasting (Empty Stomach)" "fasting"))
   <= severity (res_status (band_logic 101 (mkThreshold 70 100 125 126)
                              "Fasting (Empty Stomach)" "fasting")))%nat.
Proof.
  apply (status_monotone Fasting); [reflexivity | lia].
Defined.

(** X5. The color the band chain stores with a status is the color
    [get_status_color] gives for that status, in every branch; for a
    name it does not know, [get_status_color] gives the white circle. *)
Theorem status_color_agrees :
  (forall v t label key,
     res_color (band_logic v t label key)
     = get_status_color (res_status (band_logic v t label key))) /\
  (forall status, ~ In status STATUS_NAMES -> get_status_color status = "⚪").
Proof.
  split.
  - intros v t label key. unfold band_logic.
    destruct (v <? 40); [reflexivity|].
    destruct (v <? low t); [reflexivity|].
    destruct (v <=? normal_max t); [reflexivity|].
    destruct (v <=? borderline_max t); reflexivity.
  - intros status H. unfold get_status_color.
    rewrite getitem_missing; [reflexivity | exact H].
Qed.

Lemma status_color_agrees_witness : get_status_color "Low" = "⚪".
Proof.
  apply (proj2 status_color_agrees).
  cbn. intros [H|[H|[H|[H|[H|[]]]]]]; discriminate.
Defined.

(** ** The log file under appends and reads *)

Lemma filter_all_false {A : Type} (f : A -> bool) l :
  (forall x, In x l -> f x = false) -> filter f l = [].
Proof.
  induction l as [|a l IH]; cbn; intros H; [reflexivity|].
  rewrite (H a) by now left. apply IH. intros x Hx. apply H. now right.
Qed.

(** The columns an append writes: those of the loaded frame, then the
    ones of the new record that it has not. *)
Lemma save_sugar_history_columns timestamp v k df :
  has_column "datetime" df = true ->
  has_column "sugar" df = true ->
  exists df',
    save_sugar_history timestamp v k (Some df) = Some df' /\
    columns df' = columns (add_missing_reading_type df).
Proof.
  intros Hd Hs. eexists. split; [reflexivity|].
  cbn [concat columns].
  assert (Hd' : has_column "datetime" (add_missing_reading_type df) = true).
  { unfold add_missing_reading_type.
    destruct (has_column "reading_type" df) eqn:E; cbn [negb]; [exact Hd|].
    unfold set_reading_type, has_column in *. rewrite E. cbn [columns].
    rewrite existsb_app, Hd. reflexivity. }
  assert (Hs' : has_column "sugar" (add_missing_reading_type df) = true).
  { unfold add_missing_reading_type.
    destruct (has_column "reading_type" df) eqn:E; cbn [negb]; [exact Hs|].
    unfold set_reading_type, has_column in *. rewrite E. cbn [columns].
    rewrite existsb_app, Hs. reflexivity. }
  cbn [filter]. rewrite Hd', Hs', has_column_add_missing. cbn [negb].
  apply app_nil_r.
Qed.

(** X6. A log started by the app holds exactly the submitted readings,
    oldest first, under the columns datetime, reading_type, sugar:
    nothing is reordered, dropped or rewritten by later appends. *)
Theorem log_from_scratch (r : Reading) (readings : list Reading) :
  append_all (r :: readings) None
  = Some (mkFrame APP_COLUMNS (map reading_row (r :: readings))).
Proof.
  assert (Hstep : forall rs rows0,
    append_all rs (Some (mkFrame APP_COLUMNS rows0))
    = Some (mkFrame APP_COLUMNS (rows0 ++ map reading_row rs)%list)).
  { induction rs as [|[[ts k] v] rs IH]; intros rows0.
    - cbn. now rewrite app_nil_r.
    - cbn [append_all fold_left]. unfold append_all in IH.
      change (save_sugar_history ts v k (Some (mkFrame APP_COLUMNS rows0)))
        with (Some (mkFrame APP_COLUMNS (rows0 ++ [mkRow ts (Some k) v])%list)).
      rewrite IH, <- app_assoc. reflexivity. }
  destruct r as [[ts k] v]. cbn [append_all fold_left].
  change (save_sugar_history ts v k None)
    with (Some (mkFrame APP_COLUMNS [mkRow ts (Some k) v])).
  apply (Hstep readings [mkRow ts (Some k) v]).
Qed.

(** X7. An append keeps the order of the columns it finds.  On a log
    that has the context column the columns stay as they are; on an
    older log with the time and the value but no context, the context
    column is added last, so a log with columns datetime, sugar is
    written back with columns datetime, sugar, reading_type. *)
Theorem append_keeps_column_order timestamp v k df :
  has_column "datetime" df = true ->
  has_column "sugar" df = true ->
  exists df',
    save_sugar_history timestamp v k (Some df) = Some df' /\
    (has_column "reading_type" df = true -> columns df' = columns df) /\
    (has_column "reading_type" df = false ->
       columns df' = (columns df ++ ["reading_type"])%list).
Proof.
  intros Hd Hs.
  destruct (save_sugar_history_columns timestamp v k df Hd Hs)
    as (df' & Hsave & Hcols).
  exists df'. split; [exact Hsave|]. rewrite Hcols.
  unfold add_missing_reading_type, set_reading_type.
  split; intros E; rewrite E; reflexivity.
Qed.

Lemma append_keeps_column_order_witness :
  exists df',
    save_sugar_history "2024-01-01 08:00:00" 95 "fasting"
      (Some (mkFrame ["datetime"; "sugar"]
               [mkRow "2023-05-01 20:00:00" None 250])) = Some df'
    /\ columns df' = ["datetime"; "sugar"; "reading_type"].
Proof.
  destruct (append_keeps_column_order "2024-01-01 08:00:00" 95 "fasting"
              (mkFrame ["datetime"; "sugar"]
                 [mkRow "2023-05-01 20:00:00" None 250])
              eq_refl eq_refl) as (df' & Hsave & _ & Hlegacy).
  exists df'. split; [exact Hsave | apply Hlegacy; reflexivity].
Defined.

(** X8. Once the app has appended to a file, whatever the file was,
    loading it repairs nothing (every reader sees the stored records as
    they are), and each later append leaves all stored records,
    contexts included, untouched and adds its record at the end. *)
Theorem contexts_fixed_after_first_append timestamp v k file :
  let file1 := save_sugar_history timestamp v k file in
  repaired_log file1 = history_log file1 /\
  insight_data file1 = file1 /\
  (forall limit, 0 < limit -> len_of_log file1 <= limit ->
     rows (get_history_data limit file1) = history_log file1) /\
  (forall timestamp' v' k',
     history_log (save_sugar_history timestamp' v' k' file1)
     = (history_log file1 ++ [mkRow timestamp' (Some k') v'])%list).
Proof.
  intros file1.
  pose proof (save_sugar_history_has_reading_type timestamp v k file) as Hcol.
  fold file1 in Hcol.
  assert (Hrep : repaired_log file1 = history_log file1)
    by now apply repaired_log_present.
  split; [exact Hrep|]. split; [|split].
  - destruct file1 as [df|] eqn:E; [|reflexivity]. cbn in Hcol |- *.
    now rewrite rows_add_missing_present.
  - intros limit Hpos Hlen.
    destruct file1 as [df|] eqn:E; [|reflexivity].
    unfold len_of_log in Hlen.
    cbn [history_log has_reading_type] in Hcol, Hlen |- *.
    unfold get_history_data, tail. cbn [rows].
    rewrite rows_add_missing_present by exact Hcol.
    destruct (Z.eqb_spec limit 0); [lia|].
    destruct (Z.ltb_spec 0 limit); [|lia].
    unfold lastn.
    replace (List.length (rows df) - Z.to_nat limit)%nat with 0%nat by lia.
    reflexivity.
  - intros timestamp' v' k'. now rewrite save_sugar_history_log, Hrep.
Qed.

Lemma contexts_fixed_after_first_append_witness :
  let legacy := Some (mkFrame ["datetime"; "sugar"]
                  [mkRow "2023-05-01 20:00:00" None 250]) in
  let file1 := save_sugar_history "2024-01-01 08:00:00" 95 "fasting" legacy in
  0 < 10 /\ len_of_log file1 <= 10 /\
  rows (get_history_data 10 file1)
  = [mkRow "2023-05-01 20:00:00" (Some "random") 250;
     mkRow "2024-01-01 08:00:00" (Some "fasting") 95].
Proof.
  cbv zeta. split; [lia|]. split; [cbn; lia|].
  destruct (contexts_fixed_after_first_append
              "2024-01-01 08:00:00" 95 "fasting"
              (Some (mkFrame ["datetime"; "sugar"]
                       [mkRow "2023-05-01 20:00:00" None 250])))
    as (_ & _ & Hread & _).
  apply (Hread 10); cbn; lia.
Defined.

Lemma length_repaired_log file :
  List.length (repaired_log file) = List.length (history_log file).
Proof.
  rewrite <- (length_map sugar (repaired_log file)), repaired_log_sugar.
  apply length_map.
Qed.

(** X9. For a positive limit the history read returns the end of the
    loaded log: the records before it and the returned ones make up the
    log in order, and the number returned is the smaller of the limit
    and the number of records. *)
Theorem recent_history_is_the_end_of_the_log limit file :
  0 < limit ->
  exists older,
    repaired_log file = (older ++ rows (get_history_data limit file))%list /\
    List.length (rows (get_history_data limit file))
    = Nat.min (Z.to_nat limit) (List.length (history_log file)).
Proof.
  intros Hpos. rewrite <- length_repaired_log.
  destruct file as [df|].
  2:{ exists []. split; [reflexivity|].
      cbn. now rewrite Nat.min_0_r. }
  cbn [repaired_log]. unfold get_history_data, tail. cbn [rows].
  destruct (Z.eqb_spec limit 0); [lia|].
  destruct (Z.ltb_spec 0 limit); [|lia].
  unfold lastn.
  set (l := rows (add_missing_reading_type df)).
  exists (firstn (List.length l - Z.to_nat limit) l). split.
  - symmetry. apply firstn_skipn.
  - rewrite length_skipn. lia.
Qed.

Lemma recent_history_is_the_end_of_the_log_witness :
  0 < 2 /\
  List.length (rows (get_history_data 2
     (append_all [("2024-01-01 08:00:00", "fasting", 90);
                  ("2024-01-01 14:00:00", "post_lunch", 150);
                  ("2024-01-02 08:00:00", "fasting", 95)] None)))
  = 2%nat.
Proof.
  split; [lia|].
  destruct (recent_history_is_the_end_of_the_log 2
     (append_all [("2024-01-01 08:00:00", "fasting", 90);
                  ("2024-01-01 14:00:00", "post_lunch", 150);
                  ("2024-01-02 08:00:00", "fasting", 95)] None)
     ltac:(lia)) as (older & _ & Hlen).
  exact Hlen.
Defined.

(** ** The insight after an append *)

(** X10. Right after a reading is appended the insight is never the
    no-history text.  If the log held no record it is the first-entry
    text; otherwise it compares the new value with the value of the
    record that was last: lower cites the decrease, higher cites the
    increase, equal gives the unchanged text. *)
Theorem insight_after_append reading_type timestamp v k file :
  let file1 := save_sugar_history timestamp v k file in
  get_smart_insight reading_type file1 <> Ok NO_HISTORY /\
  (history_log file = [] ->
     get_smart_insight reading_type file1 = Ok FIRST_ENTRY) /\
  (forall older u, history_log file = (older ++ [u])%list ->
     (v < sugar u ->
        get_smart_insight reading_type file1
        = Ok (good_progress (sugar u - v))) /\
     (v > sugar u ->
        get_smart_insight reading_type file1
        = Ok (attention_needed (v - sugar u))) /\
     (v = sugar u ->
        get_smart_insight reading_type file1 = Ok SAME_AS_YESTERDAY)).
Proof.
  intros file1.
  assert (Hlog : history_log file1
                 = (repaired_log file ++ [mkRow timestamp (Some k) v])%list)
    by apply save_sugar_history_log.
  assert (Hsome : exists df, file1 = Some df).
  { destruct file as [d|]; eexists; reflexivity. }
  destruct Hsome as [df Hdf]. rewrite Hdf in *. cbn [history_log] in Hlog.
  assert (Hfirst : history_log file = [] ->
            get_smart_insight reading_type (Some df) = Ok FIRST_ENTRY).
  { intros Hnil. apply get_smart_insight_short.
    rewrite Hlog, length_app, length_repaired_log, Hnil. cbn. lia. }
  assert (Hcmp : forall older u, history_log file = (older ++ [u])%list ->
            get_smart_insight reading_type (Some df)
            = Ok (comparison (sugar u) v)).
  { intros older u Hu.
    assert (Hs : map sugar (repaired_log file) = map sugar (older ++ [u])%list)
      by (rewrite repaired_log_sugar, Hu; reflexivity).
    destruct (exists_last (l := repaired_log file)) as (older' & u' & Hrep).
    { intros E. rewrite E in Hs. destruct older; discriminate. }
    rewrite Hrep, !map_app in Hs. cbn [map] in Hs.
    apply app_inj_tail in Hs. destruct Hs as [_ Hu'].
    rewrite (get_smart_insight_last_two reading_type df older' u'
               (mkRow timestamp (Some k) v)).
    - cbn [sugar]. now rewrite Hu'.
    - rewrite Hlog, Hrep, <- app_assoc. reflexivity. }
  split; [|split; [exact Hfirst|]].
  - destruct (history_log file) as [|r l] eqn:E.
    + rewrite Hfirst by reflexivity. discriminate.
    + destruct (exists_last (l := r :: l)) as (older & u & Hu);
        [discriminate|].
      rewrite (Hcmp older u Hu). unfold comparison.
      destruct (v <? sugar u); [discriminate|].
      destruct (v >? sugar u); discriminate.
  - intros older u Hu. rewrite (Hcmp older u Hu).
    unfold comparison. rewrite Z.gtb_ltb.
    split; [|split]; intros H.
    + destruct (Z.ltb_spec v (sugar u)); [reflexivity | lia].
    + destruct (Z.ltb_spec v (sugar u)); [lia|].
      destruct (Z.ltb_spec (sugar u) v); [reflexivity | lia].
    + destruct (Z.ltb_spec v (sugar u)); [lia|].
      destruct (Z.ltb_spec (sugar u) v); [lia | reflexivity].
Qed.

Lemma insight_after_append_witness :
  get_smart_insight "fasting"
    (save_sugar_history "2024-01-02 08:00:00" 90 "fasting"
       (Some (mkFrame ["datetime"; "sugar"]
                [mkRow "2023-05-01 20:00:00" None 250])))
  = Ok "Good progress. Today's sugar is lower than yesterday by 160 mg/dL.".
Proof.
  refine (proj1 (proj2 (proj2 (insight_after_append "fasting"
            "2024-01-02 08:00:00" 90 "fasting"
            (Some (mkFrame ["datetime"; "sugar"]
                     [mkRow "2023-05-01 20:00:00" None 250]))))
            [] (mkRow "2023-05-01 20:00:00" None 250) eq_refl) _).
  cbn. lia.
Defined.


(** ** The trend chart *)


(** The chart is a function of the retained rows. *)
Lemma show_sugar_trend_rows filter_type filter_type' d d' :
  rows (trend_data filter_type d) = rows (trend_data filter_type' d') ->
  show_sugar_trend filter_type (Some d)
  = show_sugar_trend filter_type' (Some d').
Proof.
  intros H. unfold show_sugar_trend, len, tail. cbn [rows].
  now rewrite H.
Qed.


Lemma filter_all_true {A : Type} (f : A -> bool) l :
  (forall x, In x l -> f x = true) -> filter f l = l.
Proof.
  induction l as [|a l IH]; cbn; intros H; [reflexivity|].
  rewrite (H a) by now left. f_equal. apply IH. intros x Hx. apply H. now right.
Qed.

(** X13. On an older log without the context column every record is
    charted as a random reading: the chart filtered by random is the
    unfiltered chart, and the chart filtered by any other type has no
    record to show and gives the add-more-entries text instead. *)
Theorem legacy_log_charts_as_random df :
  has_column "reading_type" df = false ->
  show_sugar_trend (Some "random") (Some df) = show_sugar_trend None (Some df)
  /\ forall t, t <> "" -> t <> "random" ->
       show_sugar_trend (Some t) (Some df)
       = (["Add more daily entries to see your sugar trend."], None).
Proof.
  intros E. split.
  - apply show_sugar_trend_rows. unfold trend_data, where_reading_type.
    cbn [String.eqb rows].
    rewrite rows_add_missing_absent by exact E.
    apply filter_all_true. intros x Hx.
    apply in_map_iff in Hx. destruct Hx as (r & <- & _). reflexivity.
  - intros t Hne Hnr. unfold show_sugar_trend, trend_data.
    destruct (String.eqb_spec t ""); [contradiction|].
    unfold where_reading_type, len. cbn [rows].
    rewrite rows_add_missing_absent by exact E.
    rewrite filter_all_false; [reflexivity|].
    intros x Hx. apply in_map_iff in Hx. destruct Hx as (r & <- & _).
    cbn [reading_type]. apply String.eqb_neq. congruence.
Qed.

Lemma legacy_log_charts_as_random_witness :
  let df := mkFrame ["datetime"; "sugar"]
              [mkRow "2023-05-01 20:00:00" None 250;
               mkRow "2023-05-02 13:00:00" None 100] in
  has_column "reading_type" df = false /\
  show_sugar_trend (Some "fasting") (Some df)
  = (["Add more daily entries to see your sugar trend."], None).
Proof.
  cbv zeta. split; [reflexivity|].
  apply (proj2 (legacy_log_charts_as_random
                  (mkFrame ["datetime"; "sugar"]
                     [mkRow "2023-05-01 20:00:00" None 250;
                      mkRow "2023-05-02 13:00:00" None 100])
                  eq_refl));
    discriminate.
Defined.

(** X14. Appending a reading taken in one context leaves the chart of
    every other context as it was: on an existing file, the chart
    filtered by a type is the same before and after a reading of a
    different type is saved. *)
Theorem chart_unchanged_by_other_context timestamp v k t df :
  t <> "" -> k <> t ->
  match save_sugar_history timestamp v k (Some df) with
  | Some df' =>
      show_sugar_trend (Some t) (Some df') = show_sugar_trend (Some t) (Some df)
  | None => False
  end.
Proof.
  intros Hne Hk. cbn [save_sugar_history].
  apply show_sugar_trend_rows. unfold trend_data.
  destruct (String.eqb_spec t ""); [contradiction|].
  rewrite (rows_add_missing_present (concat _ _)).
  2:{ unfold has_column. cbn [concat columns]. rewrite existsb_app.
      change (existsb (String.eqb "reading_type")
                (columns (add_missing_reading_type df)))
        with (has_column "reading_type" (add_missing_reading_type df)).
      now rewrite has_column_add_missing. }
  unfold where_reading_type. cbn [rows concat].
  rewrite filter_app. cbn [filter reading_type].
  destruct (String.eqb_spec k t); [contradiction|].
  apply app_nil_r.
Qed.

Lemma chart_unchanged_by_other_context_witness :
  let df := mkFrame ["datetime"; "reading_type"; "sugar"]
              [mkRow "2024-01-01 08:00:00" (Some "fasting") 90;
               mkRow "2024-01-02 08:00:00" (Some "fasting") 110] in
  match save_sugar_history "2024-01-02 14:00:00" 150 "post_lunch" (Some df) with
  | Some df' =>
      show_sugar_trend (Some "fasting") (Some df')
      = show_sugar_trend (Some "fasting") (Some df)
  | None => False
  end.
Proof.
  cbv zeta.
  apply (chart_unchanged_by_other_context "2024-01-02 14:00:00" 150
           "post_lunch" "fasting"); discriminate.
Defined.

(** ** The history table *)

Lemma getitem_in {V : Type} (d : dict V) k v :
  getitem d k = Ok v -> In k (keys d).
Proof.
  induction d as [|[k' v'] d IH]; cbn; [discriminate|].
  destruct (String.eqb_spec k' k) as [->|_]; [now left|].
  intros H. right. now apply IH.
Qed.

(** X15. The reverse dictionary of the history table undoes
    [READING_TYPES]: the stored key of every label is shown as that
    label.  A text that is no stored key, a number and a missing value
    are shown as they are. *)
Theorem reverse_label_undoes_reading_types :
  (forall label key,
     getitem READING_TYPES label = Ok key ->
     reverse_label (text key) = text label) /\
  (forall s, ~ In s (map context_key all_contexts) ->
     reverse_label (text s) = text s) /\
  (forall z, reverse_label (number z) = number z) /\
  reverse_label nan = nan.
Proof.
  split; [|split; [|split; reflexivity]].
  - intros label key H.
    destruct (label_is_context label (getitem_in _ _ _ H)) as [c ->].
    rewrite READING_TYPES_context in H. injection H as <-.
    destruct c; reflexivity.
  - intros s H. unfold reverse_label, get.
    rewrite getitem_missing; [reflexivity | exact H].
Qed.

Lemma reverse_label_undoes_reading_types_witness :
  reverse_label (text "post_dinner") = text "After Dinner"
  /\ reverse_label (text "bedtime") = text "bedtime".
Proof.
  destruct reverse_label_undoes_reading_types as (Hkey & Hother & _).
  split.
  - apply Hkey. reflexivity.
  - apply Hother. cbn. intros [H|[H|[H|[H|[H|[]]]]]]; discriminate.
Defined.

Lemma lastn_not_nil {A : Type} k (l : list A) :
  (0 < k)%nat -> l <> [] -> lastn k l <> [].
Proof.
  intros Hk Hl E. unfold lastn in E.
  apply skipn_all_iff in E.
  assert (List.length l <> 0%nat)
    by (destruct l; [contradiction | discriminate]).
  lia.
Qed.

Lemma is_empty_false df : rows df <> [] -> is_empty df = false.
Proof. unfold is_empty. destruct (rows df); [contradiction | reflexivity]. Qed.

(** X16. For a log with the columns the app writes (datetime,
    reading_type, sugar) and at least one record, the history section
    shows one table of the last ten records at most: the times under
    Date/Time, the contexts under Reading Type with stored keys turned
    back into labels, the values under Blood Sugar (mg/dL), and the
    fixed-band labels under Status, in that order of columns. *)
Theorem history_table_of_app_log log :
  log <> [] ->
  let recent := lastn 10 log in
  history_section (Some (mkFrame APP_COLUMNS log))
  = Ok [el_dataframe
          [("Date/Time", map (fun r => text (datetime r)) recent);
           ("Reading Type", map (fun r => reverse_label (context_cell r)) recent);
           ("Blood Sugar (mg/dL)", map (fun r => number (sugar r)) recent);
           ("Status",
            map text (history_status_list (mkFrame APP_COLUMNS recent)))]].
Proof.
  intros Hlog recent. unfold history_section.
  change (get_history_data 10 (Some (mkFrame APP_COLUMNS log)))
    with (mkFrame APP_COLUMNS recent).
  rewrite is_empty_false by (apply lastn_not_nil; [lia | exact Hlog]).
  cbn [negb]. unfold history_table, column_cells.
  cbn -[history_status_list reverse_label recent].
  rewrite map_map. reflexivity.
Qed.

Lemma history_table_of_app_log_witness :
  history_section
    (Some (mkFrame APP_COLUMNS
             [mkRow "2024-01-01 14:00:00" (Some "post_lunch") 130]))
  = Ok [el_dataframe
          [("Date/Time", [text "2024-01-01 14:00:00"]);
           ("Reading Type", [text "After Lunch"]);
           ("Blood Sugar (mg/dL)", [number 130]);
           ("Status", [text "🔴 High"])]].
Proof.
  apply (history_table_of_app_log
           [mkRow "2024-01-01 14:00:00" (Some "post_lunch") 130]).
  discriminate.
Defined.

(** X17. The table headers are assigned by position, so on a log whose
    columns are in another order the headers do not match the data.  An
    older log with columns datetime, sugar is loaded with the context
    column last: its values are shown under Reading Type and the
    repaired context, random, under Blood Sugar (mg/dL).  After an
    append the file has the columns datetime, sugar, reading_type and is
    shown the same way, with the stored contexts under Blood Sugar
    (mg/dL).  The Status column is right in both, being read by name. *)
Theorem history_table_headers_by_position log :
  log <> [] ->
  let recent := lastn 10 log in
  history_section (Some (mkFrame ["datetime"; "sugar"] log))
  = Ok [el_dataframe
          [("Date/Time", map (fun r => text (datetime r)) recent);
           ("Reading Type", map (fun r => number (sugar r)) recent);
           ("Blood Sugar (mg/dL)", map (fun _ => text "random") recent);
           ("Status",
            map text (history_status_list (mkFrame APP_COLUMNS recent)))]]
  /\
  history_section (Some (mkFrame ["datetime"; "sugar"; "reading_type"] log))
  = Ok [el_dataframe
          [("Date/Time", map (fun r => text (datetime r)) recent);
           ("Reading Type", map (fun r => number (sugar r)) recent);
           ("Blood Sugar (mg/dL)", map context_cell recent);
           ("Status",
            map text (history_status_list (mkFrame APP_COLUMNS recent)))]].
Proof.
  intros Hlog recent. split.
  - unfold history_section.
    set (as_random := fun r => mkRow (datetime r) (Some "random") (sugar r)).
    change (get_history_data 10 (Some (mkFrame ["datetime"; "sugar"] log)))
      with (mkFrame ["datetime"; "sugar"; "reading_type"]
              (lastn 10 (map as_random log))).
    assert (Hlast : lastn 10 (map as_random log) = map as_random recent).
    { unfold recent, lastn. now rewrite length_map, skipn_map. }
    rewrite Hlast.
    rewrite is_empty_false.
    2:{ cbn [rows]. intros E. apply map_eq_nil in E.
        revert E. apply lastn_not_nil; [lia | exact Hlog]. }
    cbn [negb]. unfold history_table, column_cells.
    rewrite !history_status_list_map.
    cbn -[reverse_label recent row_status].
    rewrite !map_map. cbn [datetime sugar reading_type as_random reverse_label].
    reflexivity.
  - unfold history_section.
    change (get_history_data 10
              (Some (mkFrame ["datetime"; "sugar"; "reading_type"] log)))
      with (mkFrame ["datetime"; "sugar"; "reading_type"] recent).
    rewrite is_empty_false by (apply lastn_not_nil; [lia | exact Hlog]).
    cbn [negb]. unfold history_table, column_cells.
    rewrite !history_status_list_map.
    cbn -[reverse_label recent row_status].
    rewrite !map_map. reflexivity.
Qed.

Lemma history_table_headers_by_position_witness :
  history_section
    (Some (mkFrame ["datetime"; "sugar"]
             [mkRow "2023-05-01 20:00:00" None 250]))
  = Ok [el_dataframe
          [("Date/Time", [text "2023-05-01 20:00:00"]);
           ("Reading Type", [number 250]);
           ("Blood Sugar (mg/dL)", [text "random"]);
           ("Status", [text "🔴 High"])]].
Proof.
  apply (proj1 (history_table_headers_by_position
                  [mkRow "2023-05-01 20:00:00" None 250] ltac:(discriminate))).
Defined.

(** X18. The history section shows the no-history text whenever there
    is no record to show, with or without a file.  With records to show
    it fails with [ValueError] when the loaded log does not have three
    columns: the three headers are assigned to the columns as a
    whole. *)
Theorem history_section_edges file :
  (history_log file = [] ->
     history_section file
     = Ok [el_info
             "No history available yet. Submit your first reading to get started!"])
  /\
  (forall df, file = Some df -> rows df <> [] ->
     List.length (columns (add_missing_reading_type df)) <> 3%nat ->
     history_section file = Raise "ValueError").
Proof.
  split.
  - intros Hnil. unfold history_section.
    assert (Hrows : rows (get_history_data 10 file) = []).
    { destruct file as [df|]; [|reflexivity]. cbn in Hnil.
      unfold get_history_data, tail. cbn [rows Z.eqb Z.ltb Z.compare].
      unfold lastn.
      assert (Hr : rows (add_missing_reading_type df) = []).
      { destruct (has_column "reading_type" df) eqn:E.
        - now rewrite rows_add_missing_present.
        - rewrite rows_add_missing_absent by exact E. now rewrite Hnil. }
      rewrite Hr. reflexivity. }
    unfold is_empty. rewrite Hrows. reflexivity.
  - intros df -> Hrows Hcols. unfold history_section.
    rewrite is_empty_false.
    2:{ unfold get_history_data, tail. cbn [rows Z.eqb Z.ltb Z.compare].
        apply lastn_not_nil; [lia|].
        destruct (has_column "reading_type" df) eqn:E.
        - now rewrite rows_add_missing_present.
        - rewrite rows_add_missing_absent by exact E.
          intros H. apply map_eq_nil in H. contradiction. }
    cbn [negb]. unfold history_table.
    change (columns (get_history_data 10 (Some df)))
      with (columns (add_missing_reading_type df)).
    destruct (Nat.eqb_spec
                (List.length (columns (add_missing_reading_type df))) 3);
      [contradiction | reflexivity].
Qed.

Lemma history_section_edges_witness :
  history_section (Some (mkFrame ["sugar"] [mkRow "" None 120]))
  = Raise "ValueError".
Proof.
  apply (proj2 (history_section_edges
                  (Some (mkFrame ["sugar"] [mkRow "" None 120])))
               (mkFrame ["sugar"] [mkRow "" None 120]) eq_refl);
    cbn; [discriminate | lia].
Defined.

(** ** Whole runs of the script *)

(** X19. A run in which a non-positive or an emergency value is
    submitted ends at the [st.stop()]: the page holds the validation
    message or the advisory and nothing else.  No result, chart or
    history table is rendered in that run, even when the session has a
    result to show and the chart is switched on; the session keeps what
    it had. *)
Theorem halted_run_shows_only_the_advisory now (c : ReadingContext) i w :
  submit i = true ->
  reading_type_display i = display_name c ->
  sugar_input i <= 0 \/ sugar_input i < 40 \/ 400 < sugar_input i ->
  exists w' page,
    run_script now i w = (w', page, Halted) /\
    session w' = session w /\
    (sugar_input i <= 0 -> w' = w /\ page = map of_output INVALID_INPUT) /\
    (0 < sugar_input i < 40 -> page = map of_output CRITICAL_LOW_ADVISORY) /\
    (400 < sugar_input i -> page = map of_output EXTREMELY_HIGH_ADVISORY).
Proof.
  intros Hsubmit Hlabel Hv. unfold run_script. rewrite Hsubmit, Hlabel.
  destruct (process_submission_cases now c (sugar_input i) w) as (t & _ & ->).
  destruct (Z.leb_spec (sugar_input i) 0).
  - eexists _, _. split; [reflexivity|]. split; [reflexivity|].
    repeat split; intros; try reflexivity; lia.
  - cbv zeta. destruct (Z.ltb_spec (sugar_input i) 40).
    + eexists _, _. split; [reflexivity|]. split; [reflexivity|].
      repeat split; intros; try reflexivity; lia.
    + rewrite Z.gtb_ltb. destruct (Z.ltb_spec 400 (sugar_input i)); [|lia].
      eexists _, _. split; [reflexivity|]. split; [reflexivity|].
      repeat split; intros; try reflexivity; lia.
Qed.

Lemma halted_run_shows_only_the_advisory_witness :
  run_script "2024-01-03 08:00:00"
    (mkInputs true "Fasting (Empty Stomach)" 35 true "All")
    (fst (fst (run_script "2024-01-02 08:00:00"
                 (mkInputs true "Fasting (Empty Stomach)" 90 true "All")
                 (mkWorld None initial_session))))
  = (mkWorld
       (append_all [("2024-01-02 08:00:00", "fasting", 90);
                    ("2024-01-03 08:00:00", "fasting", 35)] None)
       (session (fst (fst (run_script "2024-01-02 08:00:00"
                 (mkInputs true "Fasting (Empty Stomach)" 90 true "All")
                 (mkWorld None initial_session))))),
     [el_error "🚨 Critical Low Blood Sugar";
      el_write "Take a fast-acting sugar source immediately and seek medical help."],
     Halted).
Proof.
  destruct (halted_run_shows_only_the_advisory "2024-01-03 08:00:00" Fasting
              (mkInputs true "Fasting (Empty Stomach)" 35 true "All")
              (fst (fst (run_script "2024-01-02 08:00:00"
                 (mkInputs true "Fasting (Empty Stomach)" 90 true "All")
                 (mkWorld None initial_session))))
              eq_refl eq_refl ltac:(right; left; cbn; lia))
    as (w' & page & Hrun & _).
  reflexivity.
Defined.

Lemma known_columns_save timestamp v k file :
  known_columns file -> known_columns (save_sugar_history timestamp v k file).
Proof.
  destruct file as [df|]; [|intros _; cbn; auto].
  intros (Hlen & Hd & Hs).
  destruct (save_sugar_history_columns timestamp v k df Hd Hs)
    as (df' & Hsave & Hcols).
  pose proof (save_sugar_history_has_reading_type timestamp v k (Some df)) as Hrt.
  rewrite Hsave in *. cbn [has_reading_type] in Hrt.
  cbn [known_columns]. rewrite rows_add_missing_present by exact Hrt.
  rewrite Hcols. split; [exact Hlen|].
  unfold has_column. rewrite Hcols.
  unfold add_missing_reading_type.
  destruct (has_column "reading_type" df) eqn:E; cbn [negb].
  - split; [exact Hd | exact Hs].
  - unfold set_reading_type. rewrite E. cbn [columns].
    rewrite !existsb_app. unfold has_column in Hd, Hs. rewrite Hd, Hs.
    split; reflexivity.
Qed.

Lemma results_section_ok s file :
  session_ok s -> exists page, results_section s file = Ok page.
Proof.
  intros Hs. unfold results_section.
  destruct (show_results s) eqn:E; [|eexists; reflexivity].
  destruct (last_result s) as [r|] eqn:Er; [|now destruct (Hs E)].
  destruct (get_smart_insight_returns (res_reading_type_key r) file)
    as [msg ->].
  eexists; reflexivity.
Qed.

Lemma trend_section_ok show filter file :
  In filter ("All" :: keys READING_TYPES) ->
  exists page, trend_section show filter file = Ok page.
Proof.
  intros Hf. unfold trend_section.
  destruct show; [|eexists; reflexivity].
  destruct (String.eqb_spec filter "All"); cbn [negb].
  - destruct (show_sugar_trend None file) as [msgs [fig|]];
      eexists; reflexivity.
  - destruct Hf as [Hf|Hf]; [congruence|].
    destruct (label_is_context _ Hf) as [c ->].
    rewrite READING_TYPES_context.
    destruct (show_sugar_trend (Some (context_key c)) file) as [msgs [fig|]];
      eexists; reflexivity.
Qed.

Lemma history_section_ok file :
  known_columns file -> exists page, history_section file = Ok page.
Proof.
  intros Hk.
  destruct file as [df|]; [|eexists; reflexivity].
  unfold history_section.
  destruct (is_empty (get_history_data 10 (Some df))); cbn [negb];
    [eexists; reflexivity|].
  destruct Hk as (Hlen & _ & Hs).
  unfold history_table.
  change (columns (get_history_data 10 (Some df)))
    with (columns (add_missing_reading_type df)).
  rewrite Hlen. cbn [Nat.eqb negb].
  assert (Hs' : has_column "sugar" (get_history_data 10 (Some df)) = true).
  { unfold has_column.
    change (columns (get_history_data 10 (Some df)))
      with (columns (add_missing_reading_type df)).
    unfold add_missing_reading_type.
    destruct (has_column "reading_type" df) eqn:E; cbn [negb]; [exact Hs|].
    unfold set_reading_type. rewrite E. cbn [columns].
    rewrite existsb_app. unfold has_column in Hs. now rewrite Hs. }
  rewrite Hs'. cbn [negb]. eexists; reflexivity.
Qed.

(** One run keeps the session and the log fit for the next, and does
    not fail. *)
Lemma run_script_step now i w :
  valid_inputs i -> session_ok (session w) -> known_columns (csv w) ->
  (forall exn, snd (run_script now i w) <> Failed exn) /\
  session_ok (session (fst (fst (run_script now i w)))) /\
  known_columns (csv (fst (fst (run_script now i w)))).
Proof.
  intros (Hlabel & Hfilter & _) Hs Hk. unfold run_script.
  assert (Hhandler :
    exists w1 outs flow,
      (if submit i
       then process_submission now (reading_type_display i) (sugar_input i) w
       else (w, [], Continues)) = (w1, outs, flow)
      /\ (forall e, flow <> Raised e)
      /\ session_ok (session w1) /\ known_columns (csv w1)).
  { destruct (submit i).
    - destruct (label_is_context _ Hlabel) as [c ->].
      destruct (process_submission_cases now c (sugar_input i) w)
        as (t & _ & ->).
      destruct (sugar_input i <=? 0).
      { eexists _, _, _. split; [reflexivity|].
        split; [discriminate|]. split; assumption. }
      cbv zeta. destruct (sugar_input i <? 40).
      { eexists _, _, _. split; [reflexivity|].
        split; [discriminate|]. split; [exact Hs|].
        now apply known_columns_save. }
      destruct (sugar_input i >? 400).
      { eexists _, _, _. split; [reflexivity|].
        split; [discriminate|]. split; [exact Hs|].
        now apply known_columns_save. }
      eexists _, _, _. split; [reflexivity|].
      split; [discriminate|]. split; [intros _; discriminate|].
      now apply known_columns_save.
    - eexists _, _, _. split; [reflexivity|].
      split; [discriminate|]. split; assumption. }
  destruct Hhandler as (w1 & outs & flow & -> & Hflow & Hs1 & Hk1).
  destruct flow as [| |e].
  - cbn. split; [discriminate|]. split; assumption.
  - destruct (results_section_ok (session w1) (csv w1) Hs1) as [r ->].
    destruct (trend_section_ok (show_trend i) (filter_by_type i) (csv w1)
                Hfilter) as [tr ->].
    destruct (history_section_ok (csv w1) Hk1) as [h ->].
    cbn. split; [discriminate|]. split; assumption.
  - destruct (Hflow e). reflexivity.
Qed.

(** X20. From the first start (no file, empty session) and through any
    sequence of runs with values the widgets can give, no run fails with
    an exception: the results section always finds a stored result when
    one is to be shown, the filter always has a key, and the log always
    has the three columns the table needs.  The same holds when the
    first start finds an older log with columns datetime, sugar. *)
Theorem page_never_fails (runs : list (string * Inputs)) file0 now i :
  file0 = None \/ (exists log, file0 = Some (mkFrame ["datetime"; "sugar"] log)) ->
  Forall (fun r => valid_inputs (snd r)) runs ->
  valid_inputs i ->
  forall exn,
    snd (run_script now i (run_all runs (mkWorld file0 initial_session)))
    <> Failed exn.
Proof.
  intros Hfile Hruns Hi.
  assert (Hinv : forall w,
    session_ok (session w) -> known_columns (csv w) ->
    session_ok (session (run_all runs w))
    /\ known_columns (csv (run_all runs w))).
  { induction Hruns as [|[ts j] runs Hj Hruns IH]; intros w Hs Hk.
    - split; assumption.
    - cbn [run_all fold_left fst snd] in *.
      destruct (run_script_step ts j w Hj Hs Hk) as (_ & Hs' & Hk').
      apply (IH _ Hs' Hk'). }
  destruct (Hinv (mkWorld file0 initial_session)) as [Hs Hk].
  - intros H. discriminate.
  - destruct Hfile as [->|[log ->]]; cbn; auto.
  - apply (run_script_step now i _ Hi Hs Hk).
Qed.

Lemma page_never_fails_witness :
  snd (run_script "2024-01-02 08:00:00"
         (mkInputs false "Random" 0 true "After Lunch")
         (run_all [("2024-01-01 08:00:00",
                    mkInputs true "Fasting (Empty Stomach)" 95 true "All")]
                  (mkWorld None initial_session)))
  <> Failed "KeyError".
Proof.
  apply (page_never_fails
           [("2024-01-01 08:00:00",
             mkInputs true "Fasting (Empty Stomach)" 95 true "All")]
           None).
  - now left.
  - repeat constructor; cbn; try tauto; lia.
  - repeat split; cbn; try tauto; lia.
Defined.

(** X21. The trends section draws nothing when the checkbox is off and
    raises [KeyError] for a filter that is neither All nor a label.
    When the trend function returns no chart the section adds its own
    no-data text after the message the function wrote: without a file
    the no-data text appears twice, and with fewer than two records the
    add-more-entries text is followed by the no-data text. *)
Theorem trend_section_messages :
  (forall filter file, trend_section false filter file = Ok []) /\
  (forall filter file,
     filter <> "All" -> ~ In filter (keys READING_TYPES) ->
     trend_section true filter file = Raise "KeyError") /\
  (forall filter,
     In filter ("All" :: keys READING_TYPES) ->
     trend_section true filter None
     = Ok [el_info "No data available to show trends.";
           el_info "No data available to show trends."]) /\
  (forall filter df,
     In filter ("All" :: keys READING_TYPES) ->
     (List.length (rows df) < 2)%nat ->
     trend_section true filter (Some df)
     = Ok [el_info "Add more daily entries to see your sugar trend.";
           el_info "No data available to show trends."]).
Proof.
  split; [reflexivity|]. split; [|split].
  - intros filter file Hall Hkey. unfold trend_section.
    destruct (String.eqb_spec filter "All"); [contradiction|]. cbn [negb].
    now rewrite (getitem_missing _ _ Hkey).
  - intros filter [<-|Hf]; [reflexivity|].
    destruct (label_is_context _ Hf) as [c ->]. destruct c; reflexivity.
  - intros filter df Hf Hlen.
    assert (Hshort : forall ft,
      show_sugar_trend ft (Some df)
      = (["Add more daily entries to see your sugar trend."], None)).
    { intros ft. unfold show_sugar_trend, len.
      assert (Hl : (List.length (rows (trend_data ft df))
                    <= List.length (rows df))%nat).
      { unfold trend_data.
        assert (Hr : List.length (rows (add_missing_reading_type df))
                     = List.length (rows df)).
        { destruct (has_column "reading_type" df) eqn:E.
          - now rewrite rows_add_missing_present.
          - rewrite rows_add_missing_absent by exact E. apply length_map. }
        destruct ft as [t|]; [|lia].
        destruct (String.eqb t ""); [lia|].
        unfold where_reading_type. cbn [rows].
        rewrite <- Hr. apply filter_length_le. }
      destruct (Z.ltb_spec
                  (Z.of_nat (List.length (rows (trend_data ft df)))) 2);
        [reflexivity | lia]. }
    unfold trend_section.
    destruct (String.eqb_spec filter "All"); cbn [negb].
    + now rewrite Hshort.
    + destruct Hf as [Hf|Hf]; [congruence|].
      destruct (label_is_context _ Hf) as [c ->].
      rewrite READING_TYPES_context. now rewrite Hshort.
Qed.

Lemma trend_section_messages_witness :
  trend_section true "Weekly" None = Raise "KeyError"
  /\ trend_section true "After Lunch"
       (Some (mkFrame APP_COLUMNS
                [mkRow "2024-01-01 14:00:00" (Some "post_lunch") 130]))
     = Ok [el_info "Add more daily entries to see your sugar trend.";
           el_info "No data available to show trends."].
Proof.
  destruct trend_section_messages as (_ & Hkey & _ & Hshort).
  split.
  - apply Hkey; [discriminate|].
    cbn. intros [H|[H|[H|[H|[H|[]]]]]]; discriminate.
  - apply Hshort; cbn; [tauto | lia].
Defined.

Lemma run_script_world now i w :
  fst (fst (run_script now i w))
  = fst (fst (if submit i
              then process_submission now (reading_type_display i)
                     (sugar_input i) w
              else (w, [], Continues))).
Proof.
  unfold run_script.
  destruct (if submit i then _ else _) as [[w1 outs] flow].
  destruct flow; [reflexivity| |reflexivity].
  destruct (results_section _ _); [|reflexivity].
  destruct (trend_section _ _ _); [|reflexivity].
  destruct (history_section _); reflexivity.
Qed.

(** X22. A stored result outlives an emergency reading.  After a value
    from 40 to 400 is submitted and then a positive value below 40, a
    later run without submission still shows the cards of the first
    value, while its insight compares the two log entries: it reports
    an improvement by the difference between the first value and the
    emergency value. *)
Theorem result_outlives_an_emergency (c : ReadingContext)
    v1 v2 now1 now2 now3 trend1 filter1 trend2 filter2 i w0 :
  40 <= v1 <= 400 -> 0 < v2 < 40 -> submit i = false ->
  let w1 := fst (fst (run_script now1
                        (mkInputs true (display_name c) v1 trend1 filter1) w0)) in
  let w2 := fst (fst (run_script now2
                        (mkInputs true (display_name c) v2 trend2 filter2) w1)) in
  exists page e,
    run_script now3 i w2 = (w2, page, e) /\
    In (el_card "Blood Sugar" (str_int v1 ++ " mg/dL")) page /\
    In (el_info (good_progress (v1 - v2))) page.
Proof.
  intros Hv1 Hv2 Hsubmit w1 w2.
  assert (Hw1 : exists t,
    w1 = mkWorld (save_sugar_history now1 v1 (context_key c) (csv w0))
           (mkSession true
              (Some (band_logic v1 t (display_name c) (context_key c))))).
  { unfold w1. rewrite run_script_world. cbn [submit reading_type_display sugar_input].
    destruct (process_submission_in_range now1 c v1 w0 Hv1) as (t & _ & ->).
    now exists t. }
  destruct Hw1 as [t Hw1].
  assert (Hw2 : w2 = mkWorld (save_sugar_history now2 v2 (context_key c) (csv w1))
                       (session w1)).
  { unfold w2. rewrite run_script_world. cbn [submit reading_type_display sugar_input].
    destruct (process_submission_cases now2 c v2 w1) as (t' & _ & ->).
    destruct (Z.leb_spec v2 0); [lia|]. cbv zeta.
    destruct (Z.ltb_spec v2 40); [reflexivity | lia]. }
  assert (Hres : res_sugar (band_logic v1 t (display_name c) (context_key c)) = v1).
  { unfold band_logic.
    destruct (v1 <? 40), (v1 <? low t), (v1 <=? normal_max t),
      (v1 <=? borderline_max t); reflexivity. }
  assert (Hinsight : forall rt,
    get_smart_insight rt (csv w2) = Ok (good_progress (v1 - v2))).
  { intros rt. rewrite Hw2. cbn [csv].
    destruct (csv w1) as [df1|] eqn:E1.
    2:{ rewrite Hw1 in E1. cbn [csv] in E1.
        destruct (csv w0); discriminate. }
    assert (Hlog1 : exists older,
      rows df1 = (older ++ [mkRow now1 (Some (context_key c)) v1])%list
      /\ has_column "reading_type" df1 = true).
    { pose proof (save_sugar_history_log now1 v1 (context_key c) (csv w0)) as Hl.
      pose proof (save_sugar_history_has_reading_type now1 v1 (context_key c)
                    (csv w0)) as Hc.
      rewrite Hw1 in E1. cbn [csv] in E1. rewrite E1 in Hl, Hc.
      eexists. split; [exact Hl | exact Hc]. }
    destruct Hlog1 as (older & Hrows1 & Hcol1).
    cbn [save_sugar_history].
    rewrite (get_smart_insight_last_two rt _ older
               (mkRow now1 (Some (context_key c)) v1)
               (mkRow now2 (Some (context_key c)) v2)).
    - cbn [sugar]. unfold comparison.
      destruct (Z.ltb_spec v2 v1); [reflexivity | lia].
    - cbn [concat rows]. rewrite rows_add_missing_present by exact Hcol1.
      rewrite Hrows1, <- app_assoc. reflexivity. }
  unfold run_script. rewrite Hsubmit.
  unfold results_section.
  assert (Hsession : session w2
    = mkSession true
        (Some (band_logic v1 t (display_name c) (context_key c)))).
  { rewrite Hw2, Hw1. reflexivity. }
  rewrite Hsession. cbn [show_results last_result].
  rewrite Hinsight, Hres.
  set (results := ([el_card "Status" _; _; _; _] ++ _)%list).
  assert (Hin1 : In (el_card "Blood Sugar" (str_int v1 ++ " mg/dL")) results).
  { unfold results. apply in_or_app. left. right. left. reflexivity. }
  assert (Hin2 : In (el_info (good_progress (v1 - v2))) results).
  { unfold results. apply in_or_app. right. apply in_or_app. right.
    apply in_or_app. right. right. right. left. reflexivity. }
  cbn [map app].
  destruct (trend_section (show_trend i) (filter_by_type i) (csv w2)) as [tr|e1].
  - destruct (history_section (csv w2)) as [h|e2].
    + eexists _, _. split; [reflexivity|].
      split; apply in_or_app; left; apply in_or_app; left; assumption.
    + eexists _, _. split; [reflexivity|].
      split; apply in_or_app; left; assumption.
  - eexists _, _. split; [reflexivity|]. split; assumption.
Qed.

Lemma result_outlives_an_emergency_witness :
  let w1 := fst (fst (run_script "2024-01-01 08:00:00"
                        (mkInputs true (display_name Fasting) 90 true "All")
                        (mkWorld None initial_session))) in
  let w2 := fst (fst (run_script "2024-01-02 08:00:00"
                        (mkInputs true (display_name Fasting) 35 true "All")
                        w1)) in
  exists page e,
    run_script "2024-01-02 09:00:00"
      (mkInputs false "Random" 0 false "All") w2 = (w2, page, e) /\
    In (el_card "Blood Sugar" "90 mg/dL") page /\
    In (el_info
          "Good progress. Today's sugar is lower than yesterday by 55 mg/dL.")
       page.
Proof.
  apply (result_outlives_an_emergency Fasting 90 35
           "2024-01-01 08:00:00" "2024-01-02 08:00:00" "2024-01-02 09:00:00"
           true "All" true "All" (mkInputs false "Random" 0 false "All")
           (mkWorld None initial_session));
    [lia | lia | reflexivity].
Defined.

Lemma lastn_snoc {A : Type} k (l : list A) x :
  (0 < k)%nat -> lastn k (l ++ [x])%list = (lastn (k - 1) l ++ [x])%list.
Proof.
  intros Hk. unfold lastn. rewrite length_app. cbn [List.length].
  rewrite skipn_app.
  replace (List.length l + 1 - k)%nat with (List.length l - (k - 1))%nat by lia.
  replace (List.length l - (k - 1) - List.length l)%nat with 0%nat by lia.
  reflexivity.
Qed.

(** X23. A reading that has just been saved is the last bar of the next
    chart, both of the unfiltered chart and of the chart of its own
    context: whenever one of these is drawn, the last height is the
    saved value and the last tick label its timestamp. *)
Theorem saved_reading_is_the_last_bar timestamp v k file filter_type msgs fig :
  filter_type = None \/ filter_type = Some k ->
  show_sugar_trend filter_type (save_sugar_history timestamp v k file)
  = (msgs, Some fig) ->
  exists heights labels,
    bar_heights fig = (heights ++ [v])%list /\
    tick_labels fig = (labels ++ [timestamp])%list.
Proof.
  intros Hf Hshow.
  assert (Hsome : exists df,
    save_sugar_history timestamp v k file = Some df
    /\ has_column "reading_type" df = true
    /\ rows df = (repaired_log file ++ [mkRow timestamp (Some k) v])%list).
  { pose proof (save_sugar_history_log timestamp v k file) as Hl.
    pose proof (save_sugar_history_has_reading_type timestamp v k file) as Hc.
    destruct (save_sugar_history timestamp v k file) as [df|] eqn:E.
    - exists df. auto.
    - destruct (repaired_log file); discriminate. }
  destruct Hsome as (df & Hsave & Hcol & Hrows).
  rewrite Hsave in Hshow. unfold show_sugar_trend in Hshow.
  destruct (len (trend_data filter_type df) <? 2); [discriminate|].
  injection Hshow as _ <-. cbn [bar_heights tick_labels].
  assert (Hdata : exists older,
    rows (trend_data filter_type df)
    = (older ++ [mkRow timestamp (Some k) v])%list).
  { unfold trend_data. rewrite rows_add_missing_present by exact Hcol.
    destruct Hf as [->| ->].
    - eexists. exact Hrows.
    - destruct (String.eqb k ""); [eexists; exact Hrows|].
      unfold where_reading_type. cbn [rows]. rewrite Hrows, filter_app.
      cbn [filter reading_type]. rewrite String.eqb_refl.
      eexists. reflexivity. }
  destruct Hdata as (older & Hdata).
  change (rows (tail 7 (trend_data filter_type df)))
    with (lastn 7 (rows (trend_data filter_type df))).
  rewrite Hdata, lastn_snoc by lia. rewrite !map_app. cbn [map sugar datetime].
  eexists _, _. split; reflexivity.
Qed.

Lemma saved_reading_is_the_last_bar_witness :
  exists fig heights labels,
    show_sugar_trend (Some "fasting")
      (save_sugar_history "2024-01-03 08:00:00" 99 "fasting"
         (Some (mkFrame APP_COLUMNS
                  [mkRow "2024-01-01 08:00:00" (Some "fasting") 90;
                   mkRow "2024-01-02 14:00:00" (Some "post_lunch") 150])))
    = ([], Some fig)
    /\ bar_heights fig = (heights ++ [99])%list
    /\ tick_labels fig = (labels ++ ["2024-01-03 08:00:00"])%list.
Proof.
  eexists.
  destruct (saved_reading_is_the_last_bar "2024-01-03 08:00:00" 99 "fasting"
              (Some (mkFrame APP_COLUMNS
                  [mkRow "2024-01-01 08:00:00" (Some "fasting") 90;
                   mkRow "2024-01-02 14:00:00" (Some "post_lunch") 150]))
              (Some "fasting") [] _ (or_intror eq_refl) eq_refl)
    as (heights & labels & Hh & Hl).
  exists heights, labels. split; [reflexivity|]. split; assumption.
Defined.
